(** * PayNowComponent: a shallow embedding of pay-now.component.ts

    The component keeps one mutable view-state and offers two operations,
    [onGetDetails] (lookup) and [onProceedToPay] (payment initiation), plus a
    getter [isPhoneNumberValid] and the keystroke filter [restrictToNumber].

    Conventions of the embedding:
    - a JavaScript string is a [string] holding its UTF-8 bytes;
    - a JavaScript number is a binary64 value, [spec_float] with precision 53
      and maximal exponent 1024;
    - a method is a function from the view-state to the new view-state and
      the list of effects it performed, in order; the answer of the platform
      to [window.open] is an argument of the method that asks for it;
    - the observer passed to [subscribe] is three functions (next, error,
      complete); the notifications an HTTP request delivers are a list;
    - console logging is left out: it reads the state and changes nothing. *)

From Stdlib Require Import Bool Arith ZArith List Ascii String Lia.
From Stdlib Require Import Floats.SpecFloat.
Import ListNotations.

Open Scope string_scope.
Open Scope nat_scope.

(** ** JavaScript built-ins used by the component *)

Module Js.

(** The character U+0022, which delimits attribute values in the markup
    the component builds. *)
Definition dquote : string := String (ascii_of_nat 34) EmptyString.

(** [!s] is true exactly for the empty string. *)
Definition truthy (s : string) : bool :=
  match s with
  | EmptyString => false
  | String _ _ => true
  end.

(** [a || b] on strings. *)
Definition or_else (a b : string) : string := if truthy a then a else b.

(** [o?.p || d]: a property that may be missing, with a default. A missing
    property reads as [undefined], which is falsy like the empty string. *)
Definition or_default (o : option string) (d : string) : string :=
  match o with
  | Some s => or_else s d
  | None => d
  end.

(** [o?.p]: the property [p] of [o], or [undefined] when [o] is missing. *)
Definition chain {A B : Type} (o : option A) (p : A -> option B) : option B :=
  match o with
  | Some a => p a
  | None => None
  end.

(** [v === 'lit']: false when [v] is missing. *)
Definition strict_eq (v : option string) (lit : string) : bool :=
  match v with
  | Some s => String.eqb s lit
  | None => false
  end.

(** The string a truthy [v] is: [v] is present and not empty. *)
Definition if_truthy (v : option string) : option string :=
  match v with
  | Some s => if truthy s then Some s else None
  | None => None
  end.

Definition is_digit (c : ascii) : bool :=
  let n := nat_of_ascii c in (48 <=? n) && (n <=? 57).

Definition is_dot (c : ascii) : bool := Ascii.eqb c ".".

Fixpoint all_chars (p : ascii -> bool) (s : string) : bool :=
  match s with
  | EmptyString => true
  | String c r => p c && all_chars p r
  end.

(** [s.replace(/[^...]/g, '')]: every character outside the class goes. *)
Fixpoint keep_chars (p : ascii -> bool) (s : string) : string :=
  match s with
  | EmptyString => EmptyString
  | String c r => if p c then String c (keep_chars p r) else keep_chars p r
  end.

(** [s.split(sep)] for a one-character separator: never the empty list,
    and the empty string splits into one empty part. *)
Fixpoint split (sep : ascii) (s : string) : list string :=
  match s with
  | EmptyString => [EmptyString]
  | String c r =>
      if Ascii.eqb c sep then EmptyString :: split sep r
      else match split sep r with
           | p :: ps => String c p :: ps
           | [] => [String c EmptyString]
           end
  end.

(** [\d{n}] matched at the head of [s]: what is left of [s] after [n]
    ASCII digits, if it starts with that many. *)
Fixpoint match_digits (n : nat) (s : string) : option string :=
  match n with
  | O => Some s
  | S k =>
      match s with
      | String c r => if is_digit c then match_digits k r else None
      | EmptyString => None
      end
  end.

(** [/^\d{10}$/.test(s)]: the pattern is anchored at the start, and without
    the m flag [$] matches at the end of the input only. *)
Definition test_ten_digits (s : string) : bool :=
  match match_digits 10 s with
  | Some EmptyString => true
  | _ => false
  end.

(** *** Numbers *)

Definition number : Type := spec_float.

Definition prec : Z := 53.
Definition emax : Z := 1024.

Definition NaN : number := S754_nan.
Definition zero : number := S754_zero false.

(** ToBoolean on a number: NaN, +0 and -0 are falsy. *)
Definition truthy_num (x : number) : bool :=
  match x with
  | S754_nan | S754_zero _ => false
  | _ => true
  end.

(** [x || 0]. *)
Definition or_zero (x : number) : number := if truthy_num x then x else zero.

(** The Number nearest to [m * 10^e] (ties to even), for [m > 0]. *)
Definition of_decimal (neg : bool) (m : positive) (e : Z) : number :=
  match e with
  | Zneg k =>
      SFdiv prec emax (S754_finite neg m 0) (S754_finite false (Pos.pow 10 k) 0)
  | Z0 => binary_round prec emax neg m 0
  | Zpos k => binary_round prec emax neg (m * Pos.pow 10 k) 0
  end.

(** *** parseFloat on a string

    Leading white space is skipped (StrWhiteSpaceChar, here on the UTF-8
    bytes), then the longest prefix that is a StrDecimalLiteral is read;
    what follows it is ignored, and when there is no such prefix the
    result is NaN. *)

Definition is_ascii_space (c : ascii) : bool :=
  let n := nat_of_ascii c in ((9 <=? n) && (n <=? 13)) || (n =? 32).

(** U+00A0. *)
Definition is_space2 (a b : ascii) : bool :=
  (nat_of_ascii a =? 194) && (nat_of_ascii b =? 160).

(** U+1680, U+2000..U+200A, U+2028, U+2029, U+202F, U+205F, U+3000,
    U+FEFF. *)
Definition is_space3 (a b c : ascii) : bool :=
  let x := nat_of_ascii a in
  let y := nat_of_ascii b in
  let z := nat_of_ascii c in
  ((x =? 225) && (y =? 154) && (z =? 128))
  || ((x =? 226) && (y =? 128)
      && (((128 <=? z) && (z <=? 138)) || (z =? 168) || (z =? 169) || (z =? 175)))
  || ((x =? 226) && (y =? 129) && (z =? 159))
  || ((x =? 227) && (y =? 128) && (z =? 128))
  || ((x =? 239) && (y =? 187) && (z =? 191)).

Fixpoint trimStart (s : string) : string :=
  match s with
  | EmptyString => s
  | String a r =>
      if is_ascii_space a then trimStart r
      else
        match r with
        | EmptyString => s
        | String b r2 =>
            if is_space2 a b then trimStart r2
            else
              match r2 with
              | EmptyString => s
              | String c r3 => if is_space3 a b c then trimStart r3 else s
              end
        end
  end.

Definition digit_val (c : ascii) : Z := Z.of_nat (nat_of_ascii c - 48).

(** DecimalDigits?: the value and the count of the leading digits, and
    the rest of the string. *)
Fixpoint digits_from (acc : Z) (cnt : nat) (s : string) : Z * nat * string :=
  match s with
  | String c r =>
      if is_digit c then digits_from (10 * acc + digit_val c) (S cnt) r
      else (acc, cnt, s)
  | EmptyString => (acc, cnt, s)
  end.

(** An optional sign. *)
Definition sign_from (s : string) : bool * string :=
  match s with
  | String c r =>
      if Ascii.eqb c "-" then (true, r)
      else if Ascii.eqb c "+" then (false, r)
      else (false, s)
  | EmptyString => (false, s)
  end.

(** ExponentPart?: [e] or [E], an optional sign, at least one digit;
    anything else is no exponent. *)
Definition exponent_from (s : string) : Z :=
  match s with
  | String c r =>
      if Ascii.eqb c "e" || Ascii.eqb c "E" then
        let '(neg, r1) := sign_from r in
        let '(v, cnt, _) := digits_from 0 0 r1 in
        match cnt with
        | O => 0%Z
        | S _ => if neg then (- v)%Z else v
        end
      else 0%Z
  | EmptyString => 0%Z
  end.

Definition parseFloat_string (s : string) : number :=
  let '(neg, t) := sign_from (trimStart s) in
  if String.prefix "Infinity" t then S754_infinity neg
  else
    let '(ip, ni, r1) := digits_from 0 0 t in
    let '(m, nf, r2) :=
      match r1 with
      | String c r =>
          if is_dot c then
            let '(m, nf, r2) := digits_from ip 0 r in (m, nf, r2)
          else (ip, O, r1)
      | EmptyString => (ip, O, r1)
      end in
    match ni, nf with
    | O, O => NaN
    | _, _ =>
        match m with
        | Zpos p => of_decimal neg p (exponent_from r2 - Z.of_nat nf)
        | _ => S754_zero neg
        end
    end.

(** parseFloat on a number goes through ToString: a Number prints as a
    decimal literal that reads back as the same Number, [Infinity] and
    [NaN] print as themselves, and -0 prints as [0]. *)
Definition parseFloat_number (x : number) : number :=
  match x with
  | S754_zero _ => zero
  | _ => x
  end.

(** *** encodeURIComponent

    Every byte of the UTF-8 encoding is escaped as [%XX] except the
    unreserved marks, letters and digits. *)

Definition is_alpha (c : ascii) : bool :=
  let n := nat_of_ascii c in
  ((65 <=? n) && (n <=? 90)) || ((97 <=? n) && (n <=? 122)).

Definition is_uri_mark (c : ascii) : bool :=
  existsb (Ascii.eqb c) ["-"; "_"; "."; "!"; "~"; "*"; "'"; "("; ")"]%char.

Definition uri_unescaped (c : ascii) : bool :=
  is_alpha c || is_digit c || is_uri_mark c.

Definition hex_digit (n : nat) : ascii :=
  if n <? 10 then ascii_of_nat (48 + n) else ascii_of_nat (55 + n).

Definition percent_encode (c : ascii) : string :=
  let n := nat_of_ascii c in
  String "%" (String (hex_digit (n / 16)) (String (hex_digit (n mod 16)) EmptyString)).

Fixpoint encodeURIComponent (s : string) : string :=
  match s with
  | EmptyString => EmptyString
  | String c r =>
      if uri_unescaped c then String c (encodeURIComponent r)
      else percent_encode c ++ encodeURIComponent r
  end.

End Js.

(** ** What travels over the wire

    The handlers take [response: any]; what they read of it is the JSON
    shape below, every property optional. A property that is missing, or
    [null], reads as [None]; an object that is present is truthy. *)

Module HttpError.
(** The error object handed to an [error] handler: an HttpErrorResponse
    (with a status) or the TimeoutError of the [timeout] operator. *)
Record t := { name : option string; status : option Z; message : option string }.
End HttpError.

Module Lookup.
Record CustomerDetails := { name : option string; phoneNumber : option string }.

(** [totalAmount] comes as a string or as a number. *)
Inductive Amount :=
| AmountString (s : string)
| AmountNumber (x : Js.number).

Record Payload := {
  customerDetails : option CustomerDetails;
  dueDate : option string;
  totalAmount : option Amount
}.

Record Data := { payload : option Payload }.

Record Response := { message : option string; data : option Data }.
End Lookup.

Module Payment.
Record Data := { link : option string }.

Record Response := { message : option string; data : option Data }.

(** The body of the POST: [number] is set only on one branch. *)
Record Request := {
  name : string;
  fileNumber : string;
  amount : Js.number;
  number : option string
}.
End Payment.

(** [parseFloat(payload.totalAmount)]; a missing amount is [undefined],
    which prints as a word that is no number. *)
Definition parseFloat (a : option Lookup.Amount) : Js.number :=
  match a with
  | Some (Lookup.AmountString s) => Js.parseFloat_string s
  | Some (Lookup.AmountNumber x) => Js.parseFloat_number x
  | None => Js.NaN
  end.

(** ** The view-state *)

Record ConsumerDetails := { name : string; dueDate : string; amount : Js.number }.

(** [SafeHtml | string]: what [bypassSecurityTrustHtml] returns is rendered
    as markup, a plain string is escaped. *)
Inductive Message :=
| Plain (text : string)
| Markup (html : string).

Record PayNowComponent := {
  accountNumber : string;
  phoneNumber : string;
  consumerDetails : option ConsumerDetails;
  errorMessage : option Message;
  isLoading : bool
}.

(** The field initialisers of the class. *)
Definition initial : PayNowComponent :=
  {| accountNumber := EmptyString;
     phoneNumber := EmptyString;
     consumerDetails := None;
     errorMessage := None;
     isLoading := false |}.

Definition set_accountNumber (v : string) (this : PayNowComponent) :=
  {| accountNumber := v;
     phoneNumber := phoneNumber this;
     consumerDetails := consumerDetails this;
     errorMessage := errorMessage this;
     isLoading := isLoading this |}.

Definition set_phoneNumber (v : string) (this : PayNowComponent) :=
  {| accountNumber := accountNumber this;
     phoneNumber := v;
     consumerDetails := consumerDetails this;
     errorMessage := errorMessage this;
     isLoading := isLoading this |}.

Definition set_consumerDetails (v : option ConsumerDetails) (this : PayNowComponent) :=
  {| accountNumber := accountNumber this;
     phoneNumber := phoneNumber this;
     consumerDetails := v;
     errorMessage := errorMessage this;
     isLoading := isLoading this |}.

Definition set_errorMessage (v : option Message) (this : PayNowComponent) :=
  {| accountNumber := accountNumber this;
     phoneNumber := phoneNumber this;
     consumerDetails := consumerDetails this;
     errorMessage := v;
     isLoading := isLoading this |}.

Definition set_isLoading (v : bool) (this : PayNowComponent) :=
  {| accountNumber := accountNumber this;
     phoneNumber := phoneNumber this;
     consumerDetails := consumerDetails this;
     errorMessage := errorMessage this;
     isLoading := v |}.

(** ** Effects *)

(** A browser tab as [window.open] returns it. *)
Definition Window : Type := nat.

Inductive Effect :=
| HttpGet (url : string)
| HttpPost (url : string) (body : Payment.Request) (headers : list (string * string))
| WindowOpen
| WindowClose (w : Window)
| WindowNavigate (w : Window) (href : string)
| DetectChanges.

Definition is_network_call (e : Effect) : bool :=
  match e with
  | HttpGet _ | HttpPost _ _ _ => true
  | _ => false
  end.

(** The network calls among the effects of a method. *)
Definition network_calls (es : list Effect) : list Effect := filter is_network_call es.

(** ** isPhoneNumberValid and restrictToNumber *)

Definition isPhoneNumberValid (this : PayNowComponent) : bool :=
  negb (Js.truthy (phoneNumber this)) || Js.test_ten_digits (phoneNumber this).

Definition is_numeric_char (c : ascii) : bool := Js.is_digit c || Js.is_dot c.

(** The string [restrictToNumber] writes back to the input, from the
    string it finds there. *)
Definition restrictToNumber_value (input : string) : string :=
  let value := Js.keep_chars is_numeric_char input in
  let parts := Js.split "." value in
  let part0 := nth 0 parts EmptyString in
  let value :=
    if 2 <? List.length parts
    then part0 ++ "." ++ nth 1 parts EmptyString
    else value in
  match nth_error parts 1 with
  | Some part1 =>
      if Js.truthy part1 && (2 <? String.length part1)
      then part0 ++ "." ++ String.substring 0 2 part1
      else value
  | None => value
  end.

Definition set_amount (v : Js.number) (d : ConsumerDetails) : ConsumerDetails :=
  {| name := name d; dueDate := dueDate d; amount := v |}.

(** [restrictToNumber(event)], with the text of the input as argument and
    its new text as first result. *)
Definition restrictToNumber (input : string) (this : PayNowComponent)
  : string * PayNowComponent * list Effect :=
  let value := restrictToNumber_value input in
  match consumerDetails this with
  | Some d =>
      (value,
       set_consumerDetails
         (Some (set_amount (Js.or_zero (Js.parseFloat_string value)) d)) this,
       [DetectChanges])
  | None => (value, this, [])
  end.

(** ** Observables

    [http.get(...)] and [http.post(...)] piped through [timeout(5000)]
    deliver either one value and then the completion, or one error; a
    request with no answer inside the time budget ends with the
    TimeoutError of the operator. A subscriber takes no notification after
    an error or a completion. *)

Inductive Notification (R : Type) :=
| Next (value : R)
| Error (error : HttpError.t)
| Complete.

Arguments Next {R} value.
Arguments Error {R} error.
Arguments Complete {R}.

Inductive Outcome (R : Type) :=
| Responded (body : R)
| Failed (error : HttpError.t)
| TimedOut.

Arguments Responded {R} body.
Arguments Failed {R} error.
Arguments TimedOut {R}.

Definition timeoutError : HttpError.t :=
  {| HttpError.name := Some "TimeoutError";
     HttpError.status := None;
     HttpError.message := Some "Timeout has occurred" |}.

Definition notifications {R : Type} (o : Outcome R) : list (Notification R) :=
  match o with
  | Responded body => [Next body; Complete]
  | Failed error => [Error error]
  | TimedOut => [Error timeoutError]
  end.

Record Observer (R : Type) := {
  next : R -> PayNowComponent -> PayNowComponent * list Effect;
  error : HttpError.t -> PayNowComponent -> PayNowComponent * list Effect;
  complete : PayNowComponent -> PayNowComponent * list Effect
}.

Arguments next {R} _ _ _.
Arguments error {R} _ _ _.
Arguments complete {R} _ _.

(** Which handler of the observer ran. *)
Inductive Handler := RanNext | RanError | RanComplete.

(** The state after the notifications, the effects of the handlers, and
    the handlers that ran, in order. *)
Fixpoint deliver {R : Type} (obs : Observer R) (ns : list (Notification R))
    (this : PayNowComponent) : PayNowComponent * list Effect * list Handler :=
  match ns with
  | [] => (this, [], [])
  | Next value :: rest =>
      let '(this1, es1) := next obs value this in
      let '(this2, es2, hs) := deliver obs rest this1 in
      (this2, (es1 ++ es2)%list, RanNext :: hs)
  | Error e :: _ =>
      let '(this1, es1) := error obs e this in (this1, es1, [RanError])
  | Complete :: _ =>
      let '(this1, es1) := complete obs this in (this1, es1, [RanComplete])
  end.

(** ** Lookup *)

Definition lookup_endpoint : string :=
  "https://api.perfectfinmart.xyz/api/v1/wp-payment?FileNumber=".

Definition onGetDetails (this : PayNowComponent) : PayNowComponent * list Effect :=
  if negb (Js.truthy (accountNumber this)) then
    (set_consumerDetails None
       (set_errorMessage (Some (Plain "Please enter an account number")) this),
     [])
  else if isLoading this then (this, [])
  else
    let this := set_isLoading true this in
    let this := set_errorMessage None this in
    let this := set_consumerDetails None this in
    let this := set_phoneNumber EmptyString this in
    (this, [HttpGet (lookup_endpoint ++ Js.encodeURIComponent (accountNumber this))]).

Definition onGetDetails_next (response : Lookup.Response) (this : PayNowComponent)
  : PayNowComponent * list Effect :=
  if negb (Js.strict_eq (Lookup.message response) "SUCCESS") then
    let this :=
      set_errorMessage
        (Some (Plain (Js.or_default (Lookup.message response)
                        "An error occurred while fetching details."))) this in
    (set_consumerDetails None this, [])
  else
    match Js.chain (Lookup.data response) Lookup.payload with
    | Some payload =>
        let this :=
          set_consumerDetails
            (Some {| name :=
                       Js.or_default
                         (Js.chain (Lookup.customerDetails payload) Lookup.name)
                         "Unknown Name";
                     dueDate := Js.or_default (Lookup.dueDate payload) "Unknown Due Date";
                     amount := Js.or_zero (parseFloat (Lookup.totalAmount payload)) |})
            this in
        let this :=
          set_phoneNumber
            (Js.or_default
               (Js.chain (Lookup.customerDetails payload) Lookup.phoneNumber)
               EmptyString) this in
        let this := set_errorMessage None this in
        (this, [DetectChanges])
    | None =>
        let this :=
          set_errorMessage (Some (Plain "No data found for this account number.")) this in
        (set_consumerDetails None this, [])
    end.

Definition status_is (e : HttpError.t) (code : Z) : bool :=
  match HttpError.status e with
  | Some s => Z.eqb s code
  | None => false
  end.

Definition name_is (e : HttpError.t) (n : string) : bool :=
  Js.strict_eq (HttpError.name e) n.

Definition onGetDetails_error (error : HttpError.t) (this : PayNowComponent)
  : PayNowComponent * list Effect :=
  let this :=
    set_errorMessage
      (Some (Plain
         (if name_is error "TimeoutError"
          then "Request timed out. Please try again or check your network."
          else if status_is error 0
          then "CORS error: Unable to reach the server. Please check your network or contact support."
          else if status_is error 401 || status_is error 403
          then "Authorization error: Invalid or expired token. Please contact support."
          else "Failed to fetch details: "
               ++ Js.or_default (HttpError.message error) "Unknown error")))
      this in
  let this := set_consumerDetails None this in
  let this := set_isLoading false this in
  (this, [DetectChanges]).

Definition onGetDetails_complete (this : PayNowComponent) : PayNowComponent * list Effect :=
  (set_isLoading false this, [DetectChanges]).

Definition lookup_observer : Observer Lookup.Response :=
  {| next := onGetDetails_next;
     error := onGetDetails_error;
     complete := onGetDetails_complete |}.

(** A whole lookup: the call of [onGetDetails] and, when it issued the
    request, the notifications of that request. *)
Definition lookup_run (o : Outcome Lookup.Response) (this : PayNowComponent)
  : PayNowComponent * list Effect * list Handler :=
  let '(this1, es1) := onGetDetails this in
  match network_calls es1 with
  | [] => (this1, es1, [])
  | _ :: _ =>
      let '(this2, es2, hs) := deliver lookup_observer (notifications o) this1 in
      (this2, (es1 ++ es2)%list, hs)
  end.

(** ** Payment initiation *)

Definition attr (v : string) : string := Js.dquote ++ v ++ Js.dquote.

(** The anchor all three markup messages embed. *)
Definition fallback_link (href : string) : string :=
  "<a href=" ++ attr href ++ " class=" ++ attr "fallback-link" ++ ">click here</a>".

Definition popup_blocked_html : string :=
  "Popup blocked. Please allow popups in Safari (Settings > Safari > Block Pop-ups > Off) and try again, or "
  ++ fallback_link "#" ++ " to proceed with payment.".

Definition invalid_url_html (link : string) : string :=
  "Invalid payment URL. Please try again or " ++ fallback_link link
  ++ " to proceed with payment.".

Definition unreachable_html : string :=
  "Unable to reach the payment server. Please check your network, allow popups in Safari (Settings > Safari > Block Pop-ups > Off), or "
  ++ fallback_link "#" ++ " to proceed.".

Definition payment_endpoint : string :=
  "https://api.perfectfinmart.xyz/api/v1/wp-payment".

(** [paymentPayload] as it stands when the request is built. *)
Definition paymentPayload (this : PayNowComponent) (details : ConsumerDetails)
  : Payment.Request :=
  {| Payment.name := name details;
     Payment.fileNumber := accountNumber this;
     Payment.amount := amount details;
     Payment.number :=
       if Js.truthy (phoneNumber this) && isPhoneNumberValid this
       then Some (phoneNumber this)
       else None |}.

(** [tempWindow] is what [window.open('', '_blank')] returns if it is
    called: a tab, or [None] when the browser blocks the popup. *)
Definition onProceedToPay (tempWindow : option Window) (this : PayNowComponent)
  : PayNowComponent * list Effect :=
  match consumerDetails this with
  | None =>
      (set_errorMessage
         (Some (Plain "No consumer details available to proceed with payment.")) this,
       [])
  | Some details =>
      if isLoading this then (this, [])
      else
        let this := set_isLoading true this in
        let this := set_errorMessage None this in
        let body := paymentPayload this details in
        match tempWindow with
        | None =>
            let this := set_errorMessage (Some (Markup popup_blocked_html)) this in
            let this := set_isLoading false this in
            (this, [WindowOpen; DetectChanges])
        | Some _ =>
            (this,
             [WindowOpen;
              HttpPost payment_endpoint body [("Content-Type", "application/json")]])
        end
  end.

Section PaymentHandlers.

(** [new URL(s)] of the platform: the serialised URL ([toString]) when
    [s] parses, [None] when the constructor throws. Nothing else in the
    [try] block throws: assigning [location.href] of the opened tab
    starts the navigation. *)
Variable new_URL : string -> option string.

Definition onProceedToPay_next (tempWindow : Window) (response : Payment.Response)
    (this : PayNowComponent) : PayNowComponent * list Effect :=
  match (if Js.strict_eq (Payment.message response) "Success"
         then Js.if_truthy (Js.chain (Payment.data response) Payment.link)
         else None) with
  | Some link =>
      match new_URL link with
      | Some href => (this, [WindowNavigate tempWindow href])
      | None =>
          let this := set_errorMessage (Some (Markup (invalid_url_html link))) this in
          let this := set_isLoading false this in
          (this, [WindowClose tempWindow; DetectChanges])
      end
  | None =>
      let this :=
        set_errorMessage
          (Some (Plain "Failed to generate payment link. Please try again.")) this in
      let this := set_isLoading false this in
      (this, [WindowClose tempWindow; DetectChanges])
  end.

Definition onProceedToPay_error (tempWindow : Window) (error : HttpError.t)
    (this : PayNowComponent) : PayNowComponent * list Effect :=
  let this :=
    set_errorMessage
      (Some (Markup
         (if name_is error "TimeoutError"
          then "Payment request timed out. Please try again."
          else if status_is error 0
          then unreachable_html
          else if status_is error 401 || status_is error 403
          then "Authorization error: Unable to process payment. Please contact support."
          else "Failed to initiate payment: "
               ++ Js.or_default (HttpError.message error) "Unknown error")))
      this in
  let this := set_isLoading false this in
  (this, [WindowClose tempWindow; DetectChanges]).

Definition onProceedToPay_complete (this : PayNowComponent)
  : PayNowComponent * list Effect :=
  (set_isLoading false this, [DetectChanges]).

Definition payment_observer (tempWindow : Window) : Observer Payment.Response :=
  {| next := onProceedToPay_next tempWindow;
     error := onProceedToPay_error tempWindow;
     complete := onProceedToPay_complete |}.

(** A whole payment initiation, likewise. *)
Definition payment_run (tempWindow : option Window) (o : Outcome Payment.Response)
    (this : PayNowComponent) : PayNowComponent * list Effect * list Handler :=
  let '(this1, es1) := onProceedToPay tempWindow this in
  match network_calls es1, tempWindow with
  | _ :: _, Some w =>
      let '(this2, es2, hs) := deliver (payment_observer w) (notifications o) this1 in
      (this2, (es1 ++ es2)%list, hs)
  | _, _ => (this1, es1, [])
  end.

(** ** The component as a transition system *)

(** Modelled from the spec: the template pay-now.component.html is not
    among the sources; by the spec the account and phone fields are bound
    to form inputs (free text), the amount input is filtered on every
    keystroke, and the two operations are triggered by the user. A
    notification of either request may arrive in any state. *)
Inductive Event :=
| EditAccountNumber (v : string)
| EditPhoneNumber (v : string)
| AmountKeystroke (input : string)
| GetDetails
| ProceedToPay (tempWindow : option Window)
| LookupNotified (n : Notification Lookup.Response)
| PaymentNotified (tempWindow : Window) (n : Notification Payment.Response).

Definition handle (ev : Event) (this : PayNowComponent) : PayNowComponent :=
  match ev with
  | EditAccountNumber v => set_accountNumber v this
  | EditPhoneNumber v => set_phoneNumber v this
  | AmountKeystroke input => snd (fst (restrictToNumber input this))
  | GetDetails => fst (onGetDetails this)
  | ProceedToPay w => fst (onProceedToPay w this)
  | LookupNotified n => fst (fst (deliver lookup_observer [n] this))
  | PaymentNotified w n => fst (fst (deliver (payment_observer w) [n] this))
  end.

Inductive reachable : PayNowComponent -> Prop :=
| reachable_initial : reachable initial
| reachable_handle ev this : reachable this -> reachable (handle ev this).

End PaymentHandlers.


(** A parser for examples: it accepts, unchanged, the strings that start
    with a scheme (a letter, then letters, digits, [+], [-] or [.], then a
    colon) and rejects every other string, as the platform does for a string
    with no scheme and no base URL. *)
Fixpoint scheme_rest (s : string) : bool :=
  match s with
  | EmptyString => false
  | String c r =>
      if Ascii.eqb c ":" then true
      else if Js.is_alpha c || Js.is_digit c
              || Ascii.eqb c "+" || Ascii.eqb c "-" || Ascii.eqb c "."
      then scheme_rest r
      else false
  end.

Definition has_scheme (s : string) : bool :=
  match s with
  | String c r => Js.is_alpha c && scheme_rest r
  | EmptyString => false
  end.

Definition scheme_parser (s : string) : option string :=
  if has_scheme s then Some s else None.

(** ** Vocabulary of the properties *)

(** The sanitizer as the specification words it: strip everything but
    digits and decimal points; of the segments between decimal points keep
    the first and, when there is one, the second, cut to two characters. *)
Definition amount_sanitizer_spec (input : string) : string :=
  let stripped := Js.keep_chars is_numeric_char input in
  match Js.split "." stripped with
  | integer :: fraction :: _ => integer ++ "." ++ String.substring 0 2 fraction
  | _ => stripped
  end.

Fixpoint join (sep : string) (parts : list string) : string :=
  match parts with
  | [] => EmptyString
  | [p] => p
  | p :: ps => p ++ sep ++ join sep ps
  end.

(** Exactly ten characters, each of them one of [0] to [9]. *)
Definition ten_digits (s : string) : Prop :=
  String.length s = 10 /\
  forall c, In c (list_ascii_of_string s) ->
            nat_of_ascii "0" <= nat_of_ascii c <= nat_of_ascii "9".

(** The shape of what the sanitizer returns: digits only, or digits, one
    decimal point and at most two digits. *)
Definition sanitized (out : string) : Prop :=
  Js.all_chars Js.is_digit out = true \/
  exists integer fraction,
    out = integer ++ "." ++ fraction /\
    Js.all_chars Js.is_digit integer = true /\
    Js.all_chars Js.is_digit fraction = true /\
    String.length fraction <= 2.

(** Consumer details are shown and no request is pending. *)
Definition ready_to_pay : PayNowComponent :=
  {| accountNumber := "ACC-1";
     phoneNumber := "5551234567";
     consumerDetails :=
       Some {| name := "Jane"; dueDate := "2025-01-01"; amount := Js.zero |};
     errorMessage := None;
     isLoading := false |}.

(** A payment is pending and the account field has been cleared. *)
Definition pending_payment_blank_account : PayNowComponent :=
  {| accountNumber := "";
     phoneNumber := "5551234567";
     consumerDetails :=
       Some {| name := "Jane"; dueDate := "2025-01-01"; amount := Js.zero |};
     errorMessage := None;
     isLoading := true |}.

(** A lookup is pending: there are no consumer details yet. *)
Definition pending_lookup : PayNowComponent :=
  {| accountNumber := "ACC-1";
     phoneNumber := "";
     consumerDetails := None;
     errorMessage := None;
     isLoading := true |}.

Definition success_response (p : Lookup.Payload) : Lookup.Response :=
  {| Lookup.message := Some "SUCCESS";
     Lookup.data := Some {| Lookup.payload := Some p |} |}.

Definition jane_response : Lookup.Response :=
  success_response
    {| Lookup.customerDetails :=
         Some {| Lookup.name := Some "Jane";
                 Lookup.phoneNumber := Some "5551234567" |};
       Lookup.dueDate := Some "2025-01-01";
       Lookup.totalAmount := Some (Lookup.AmountString "42.50") |}.

(** The Number 42.5: 85 * 2^46 * 2^-47, with a mantissa of 53 bits. *)
Definition number_42_5 : Js.number := S754_finite false (85 * 2 ^ 46) (-47).

Definition payload_name (p : Lookup.Payload) : option string :=
  Js.chain (Lookup.customerDetails p) Lookup.name.

Definition payload_phone (p : Lookup.Payload) : option string :=
  Js.chain (Lookup.customerDetails p) Lookup.phoneNumber.

(** The response is a success with a payload: the one case in which the
    [next] handler fills the consumer details. *)
Definition lookup_succeeds (response : Lookup.Response) : bool :=
  Js.strict_eq (Lookup.message response) "SUCCESS"
  && match Js.chain (Lookup.data response) Lookup.payload with
     | Some _ => true
     | None => false
     end.

Definition lookup_fails (o : Outcome Lookup.Response) : bool :=
  match o with
  | Responded body => negb (lookup_succeeds body)
  | Failed _ | TimedOut => true
  end.

Definition link_response (link : string) : Payment.Response :=
  {| Payment.message := Some "Success";
     Payment.data := Some {| Payment.link := Some link |} |}.

Definition is_markup (m : option Message) : bool :=
  match m with
  | Some (Markup _) => true
  | _ => false
  end.

(** A payment is pending. *)
Definition pending_payment : PayNowComponent :=
  {| accountNumber := "ACC-1";
     phoneNumber := "5551234567";
     consumerDetails :=
       Some {| name := "Jane"; dueDate := "2025-01-01"; amount := number_42_5 |};
     errorMessage := None;
     isLoading := true |}.

(** Of the success handler and the error handler exactly one ran: the
    handlers were [next] and then [complete], or [error] alone. *)
Definition one_outcome_handler (hs : list Handler) : Prop :=
  hs = [RanNext; RanComplete] \/ hs = [RanError].

Definition times_run (h : Handler) (hs : list Handler) : nat :=
  List.length
    (filter (fun x =>
               match h, x with
               | RanNext, RanNext | RanError, RanError | RanComplete, RanComplete => true
               | _, _ => false
               end) hs).

Definition at_most_one_non_null (this : PayNowComponent) : Prop :=
  consumerDetails this = None \/ errorMessage this = None.

(** While a request is pending, the consumer details and the error message
    are not both set. *)
Definition loading_inv (this : PayNowComponent) : Prop :=
  isLoading this = true -> at_most_one_non_null this.

(** ** Vocabulary of the further properties *)

(** An amount the keystroke filter can store: +0, a positive Number or
    +Infinity. *)
Definition is_amount (x : Js.number) : bool :=
  match x with
  | S754_zero false | S754_finite false _ _ | S754_infinity false => true
  | _ => false
  end.

(** Consumer details as the component builds them: a name and a due date
    that are not empty, an amount that is neither NaN nor -0. *)
Definition details_ok (d : ConsumerDetails) : Prop :=
  name d <> EmptyString /\
  dueDate d <> EmptyString /\
  amount d <> S754_nan /\
  amount d <> S754_zero true.

Definition hex_val (c : ascii) : nat :=
  let n := nat_of_ascii c in
  if n <=? 57 then n - 48 else n - 55.

(** Reading the escapes back: [%XY] is the byte with the hexadecimal
    digits X and Y, any other character is itself. *)
Fixpoint percent_decode (s : string) : string :=
  match s with
  | EmptyString => EmptyString
  | String c r =>
      if Ascii.eqb c "%" then
        match r with
        | String h (String l r2) =>
            String (ascii_of_nat (16 * hex_val h + hex_val l)) (percent_decode r2)
        | _ => String c (percent_decode r)
        end
      else String c (percent_decode r)
  end.

(** What may stand in the query of the lookup URL: an unreserved character
    or the percent sign of an escape. *)
Definition is_query_char (c : ascii) : bool :=
  Js.uri_unescaped c || Ascii.eqb c "%".

(** An event with the effects it has; its state is that of [handle]. *)
Definition perform (new_URL : string -> option string) (ev : Event)
    (this : PayNowComponent) : PayNowComponent * list Effect :=
  match ev with
  | EditAccountNumber v => (set_accountNumber v this, [])
  | EditPhoneNumber v => (set_phoneNumber v this, [])
  | AmountKeystroke input =>
      (snd (fst (restrictToNumber input this)), snd (restrictToNumber input this))
  | GetDetails => onGetDetails this
  | ProceedToPay w => onProceedToPay w this
  | LookupNotified n => fst (deliver lookup_observer [n] this)
  | PaymentNotified w n => fst (deliver (payment_observer new_URL w) [n] this)
  end.

(** What the user does, as opposed to what the network delivers. *)
Definition is_user_event (ev : Event) : bool :=
  match ev with
  | LookupNotified _ | PaymentNotified _ _ => false
  | _ => true
  end.

Fixpoint perform_all (new_URL : string -> option string) (evs : list Event)
    (this : PayNowComponent) : PayNowComponent * list Effect :=
  match evs with
  | [] => (this, [])
  | ev :: rest =>
      let '(this1, es1) := perform new_URL ev this in
      let '(this2, es2) := perform_all new_URL rest this1 in
      (this2, (es1 ++ es2)%list)
  end.

Definition is_window_effect (e : Effect) : bool :=
  match e with
  | WindowOpen | WindowClose _ | WindowNavigate _ _ => true
  | _ => false
  end.

(** What happens to browser tabs among the effects of a run. *)
Definition window_effects (es : list Effect) : list Effect := filter is_window_effect es.

(** The address the [next] handler of a payment sends the tab to, if any:
    the response says Success, carries a truthy link, and the link parses. *)
Definition payment_href (new_URL : string -> option string)
    (response : Payment.Response) : option string :=
  match (if Js.strict_eq (Payment.message response) "Success"
         then Js.if_truthy (Js.chain (Payment.data response) Payment.link)
         else None) with
  | Some link => new_URL link
  | None => None
  end.

(** An error that is neither a timeout nor an unreachable server nor a
    refused authorisation. *)
Definition is_generic_error (e : HttpError.t) : bool :=
  negb (name_is e "TimeoutError")
  && negb (status_is e 0)
  && negb (status_is e 401)
  && negb (status_is e 403).

(** ** A response with no body

    HttpClient hands [next] the parsed JSON body, which is [null] for an
    HTTP 200 with an empty body. Both [next] handlers begin by reading
    [response.message], the payment handler outside its [try]: on [null]
    that read throws a TypeError before anything is written, closed or
    navigated. rxjs reports an error thrown by [next] outside the
    subscription, which goes on to deliver the completion. A body is [None]
    for [null] and [Some] for an object. *)

Definition onGetDetails_next_body (body : option Lookup.Response)
    (this : PayNowComponent) : PayNowComponent * list Effect :=
  match body with
  | Some response => onGetDetails_next response this
  | None => (this, [])
  end.

Definition lookup_body_observer : Observer (option Lookup.Response) :=
  {| next := onGetDetails_next_body;
     error := onGetDetails_error;
     complete := onGetDetails_complete |}.

(** A whole lookup whose response may have no body. *)
Definition lookup_body_run (o : Outcome (option Lookup.Response))
    (this : PayNowComponent) : PayNowComponent * list Effect * list Handler :=
  let '(this1, es1) := onGetDetails this in
  match network_calls es1 with
  | [] => (this1, es1, [])
  | _ :: _ =>
      let '(this2, es2, hs) := deliver lookup_body_observer (notifications o) this1 in
      (this2, (es1 ++ es2)%list, hs)
  end.

Definition onProceedToPay_next_body (new_URL : string -> option string)
    (tempWindow : Window) (body : option Payment.Response) (this : PayNowComponent)
  : PayNowComponent * list Effect :=
  match body with
  | Some response => onProceedToPay_next new_URL tempWindow response this
  | None => (this, [])
  end.

Definition payment_body_observer (new_URL : string -> option string)
    (tempWindow : Window) : Observer (option Payment.Response) :=
  {| next := onProceedToPay_next_body new_URL tempWindow;
     error := onProceedToPay_error tempWindow;
     complete := onProceedToPay_complete |}.

(** A whole payment initiation whose response may have no body. *)
Definition payment_body_run (new_URL : string -> option string)
    (tempWindow : option Window) (o : Outcome (option Payment.Response))
    (this : PayNowComponent) : PayNowComponent * list Effect * list Handler :=
  let '(this1, es1) := onProceedToPay tempWindow this in
  match network_calls es1, tempWindow with
  | _ :: _, Some w =>
      let '(this2, es2, hs) :=
        deliver (payment_body_observer new_URL w) (notifications o) this1 in
      (this2, (es1 ++ es2)%list, hs)
  | _, _ => (this1, es1, [])
  end.

(** What a payment initiation does to its tab once the request has ended:
    nothing when the body is null, else it navigates or closes it. *)
Definition tab_fate (new_URL : string -> option string) (w : Window)
    (o : Outcome (option Payment.Response)) : list Effect :=
  match o with
  | Responded None => []
  | Responded (Some response) =>
      [match payment_href new_URL response with
       | Some href => WindowNavigate w href
       | None => WindowClose w
       end]
  | Failed _ | TimedOut => [WindowClose w]
  end.

(** The outcomes after which a payment initiation shows no error message:
    a null body, and a response whose link the tab was sent to. *)
Definition payment_silent (new_URL : string -> option string)
    (o : Outcome (option Payment.Response)) : bool :=
  match o with
  | Responded None => true
  | Responded (Some response) =>
      match payment_href new_URL response with Some _ => true | None => false end
  | Failed _ | TimedOut => false
  end.

(** The state in which the notifications of a lookup request leave the
    component, from the state [later] in which they find it. *)
Definition lookup_body_final (o : Outcome (option Lookup.Response))
    (later : PayNowComponent) : PayNowComponent :=
  fst (fst (deliver lookup_body_observer (notifications o) later)).

(** * Properties *)

(** ** The built-ins on samples *)

Example split_samples :
  Js.split "." "12.3.45" = ["12"; "3"; "45"] /\
  Js.split "." "1..5" = ["1"; ""; "5"] /\
  Js.split "." "" = [""] /\
  Js.split "." "125" = ["125"].
Proof. repeat split; reflexivity. Qed.

Example encodeURIComponent_samples :
  Js.encodeURIComponent "ACC-1" = "ACC-1" /\
  Js.encodeURIComponent "a b/c?d=e&f" = "a%20b%2Fc%3Fd%3De%26f".
Proof. repeat split; reflexivity. Qed.

Example parseFloat_samples :
  Js.parseFloat_string "42.50" = number_42_5 /\
  Js.parseFloat_string "  42.5abc" = number_42_5 /\
  Js.parseFloat_string "4250e-2" = number_42_5 /\
  Js.parseFloat_string "12." = Js.of_decimal false 12 0 /\
  Js.parseFloat_string ".5" = Js.of_decimal false 5 (-1) /\
  Js.parseFloat_string "-0" = S754_zero true /\
  Js.parseFloat_string "1e400" = S754_infinity false /\
  Js.parseFloat_string "." = Js.NaN /\
  Js.parseFloat_string "" = Js.NaN /\
  Js.parseFloat_string "abc" = Js.NaN /\
  Js.or_zero (Js.parseFloat_string "") = Js.zero /\
  Js.or_zero (Js.parseFloat_string "-0") = Js.zero.
Proof. repeat split; vm_compute; reflexivity. Qed.

Example restrictToNumber_amount :
  restrictToNumber "abc12.345xyz" ready_to_pay =
  ("12.34",
   {| accountNumber := "ACC-1";
      phoneNumber := "5551234567";
      consumerDetails :=
        Some {| name := "Jane"; dueDate := "2025-01-01";
                amount := Js.of_decimal false 1234 (-2) |};
      errorMessage := None;
      isLoading := false |},
   [DetectChanges]).
Proof. vm_compute. reflexivity. Qed.

Example lookup_of_jane :
  lookup_run (Responded jane_response) (set_accountNumber "ACC-1" initial) =
  ({| accountNumber := "ACC-1";
      phoneNumber := "5551234567";
      consumerDetails :=
        Some {| name := "Jane"; dueDate := "2025-01-01"; amount := number_42_5 |};
      errorMessage := None;
      isLoading := false |},
   [HttpGet "https://api.perfectfinmart.xyz/api/v1/wp-payment?FileNumber=ACC-1";
    DetectChanges; DetectChanges],
   [RanNext; RanComplete]).
Proof. vm_compute. reflexivity. Qed.

Example payment_unreachable :
  payment_run scheme_parser (Some 7)
    (Failed {| HttpError.name := Some "HttpErrorResponse";
               HttpError.status := Some 0%Z;
               HttpError.message := Some "Http failure response" |})
    ready_to_pay =
  ({| accountNumber := "ACC-1";
      phoneNumber := "5551234567";
      consumerDetails := consumerDetails ready_to_pay;
      errorMessage := Some (Markup unreachable_html);
      isLoading := false |},
   [WindowOpen;
    HttpPost payment_endpoint
      {| Payment.name := "Jane";
         Payment.fileNumber := "ACC-1";
         Payment.amount := Js.zero;
         Payment.number := Some "5551234567" |}
      [("Content-Type", "application/json")];
    WindowClose 7; DetectChanges],
   [RanError]).
Proof. vm_compute. reflexivity. Qed.

(** ** The amount sanitizer *)

Lemma split_not_nil sep s : Js.split sep s <> [].
Proof.
  destruct s as [|c r]; simpl; [discriminate|].
  destruct (Ascii.eqb c sep); [discriminate|].
  destruct (Js.split sep r); discriminate.
Qed.

Lemma join_cons sep p q qs :
  join sep (p :: q :: qs) = p ++ sep ++ join sep (q :: qs).
Proof. reflexivity. Qed.

Lemma join_split sep s : join (String sep EmptyString) (Js.split sep s) = s.
Proof.
  induction s as [|c r IH]; [reflexivity|].
  pose proof (split_not_nil sep r) as Hnil.
  cbn [Js.split].
  destruct (Ascii.eqb_spec c sep) as [->|Hne];
    destruct (Js.split sep r) as [|p ps]; try contradiction.
  - rewrite join_cons, IH. reflexivity.
  - destruct ps as [|q qs].
    + cbn [join] in *. now subst.
    + rewrite join_cons in *. rewrite <- IH. reflexivity.
Qed.

Lemma substring_short s : String.length s <= 2 -> String.substring 0 2 s = s.
Proof.
  destruct s as [|a [|b [|c r]]]; simpl; intros H; try reflexivity; lia.
Qed.

Lemma substring_length_le s : String.length (String.substring 0 2 s) <= 2.
Proof.
  destruct s as [|a [|b r]]; simpl; try lia.
  destruct r; simpl; lia.
Qed.

Lemma all_chars_append p a b :
  Js.all_chars p (a ++ b) = Js.all_chars p a && Js.all_chars p b.
Proof.
  induction a as [|c r IH]; simpl; [reflexivity|].
  now rewrite IH, andb_assoc.
Qed.

Lemma all_chars_keep p s : Js.all_chars p (Js.keep_chars p s) = true.
Proof.
  induction s as [|c r IH]; simpl; [reflexivity|].
  destruct (p c) eqn:Hp; simpl; [now rewrite Hp|assumption].
Qed.

Lemma all_chars_substring p s :
  Js.all_chars p s = true -> Js.all_chars p (String.substring 0 2 s) = true.
Proof.
  destruct s as [|a [|b r]]; simpl; try easy.
  intros H. apply andb_prop in H as [Ha H]. apply andb_prop in H as [Hb _].
  rewrite Ha, Hb. now destruct r.
Qed.

(** The segments of a string of digits and points hold digits only. *)
Lemma split_digits s :
  Js.all_chars is_numeric_char s = true ->
  Forall (fun p => Js.all_chars Js.is_digit p = true) (Js.split "." s).
Proof.
  induction s as [|c r IH]; simpl; intros H.
  - now repeat constructor.
  - apply andb_prop in H as [Hc Hr]. specialize (IH Hr).
    destruct (Ascii.eqb_spec c ".") as [->|Hne].
    + now constructor.
    + pose proof (split_not_nil "." r) as Hnil.
      destruct (Js.split "." r) as [|q qs]; [contradiction|].
      inversion IH as [|? ? Hq Hqs]; subst.
      constructor; [|assumption]. simpl. rewrite Hq, andb_true_r.
      unfold is_numeric_char, Js.is_dot in Hc.
      apply Ascii.eqb_neq in Hne. rewrite Hne, orb_false_r in Hc. exact Hc.
Qed.

Lemma split_no_point s :
  Js.split "." s = [s] <-> Js.all_chars (fun c => negb (Js.is_dot c)) s = true.
Proof.
  induction s as [|c r IH]; simpl; [tauto|].
  unfold Js.is_dot at 1.
  destruct (Ascii.eqb c ".") eqn:E; simpl.
  - split; [|discriminate]. intros H. injection H as H _. discriminate.
  - pose proof (split_not_nil "." r) as Hnil.
    destruct (Js.split "." r) as [|q qs]; [contradiction|].
    rewrite <- IH. split; intros H.
    + injection H as -> ->. reflexivity.
    + injection H as -> ->. reflexivity.
Qed.

(** ** The phone predicate *)

Lemma all_chars_forall p s :
  Js.all_chars p s = true <-> forall c, In c (list_ascii_of_string s) -> p c = true.
Proof.
  induction s as [|a r IH]; simpl.
  - split; [intros _ c []|reflexivity].
  - rewrite andb_true_iff, IH. split.
    + intros [Ha Hr] c [<-|Hc]; auto.
    + intros H. split; [apply H; now left|intros c Hc; apply H; now right].
Qed.

Lemma is_digit_spec c : Js.is_digit c = true <-> 48 <= nat_of_ascii c <= 57.
Proof.
  unfold Js.is_digit. rewrite andb_true_iff, !Nat.leb_le. reflexivity.
Qed.

(** [match_digits n s] succeeds with the empty rest exactly on the strings
    of [n] digits. *)
Lemma match_digits_all n s :
  Js.match_digits n s = Some EmptyString <->
  String.length s = n /\ Js.all_chars Js.is_digit s = true.
Proof.
  revert s. induction n as [|k IH]; intros s; simpl.
  - destruct s; simpl; split.
    + auto.
    + reflexivity.
    + discriminate.
    + intros [H _]. discriminate.
  - destruct s as [|c r]; simpl.
    + split; [discriminate|intros [H _]; discriminate].
    + destruct (Js.is_digit c); simpl.
      * rewrite IH. split; intros [H1 H2]; split; auto.
      * split; [discriminate|intros [_ H]; discriminate].
Qed.

Lemma test_ten_digits_spec s : Js.test_ten_digits s = true <-> ten_digits s.
Proof.
  unfold ten_digits.
  change (nat_of_ascii "0") with 48. change (nat_of_ascii "9") with 57.
  transitivity (Js.match_digits 10 s = Some EmptyString).
  - unfold Js.test_ten_digits.
    destruct (Js.match_digits 10 s) as [[|c r]|]; split; congruence.
  - rewrite match_digits_all, all_chars_forall.
    split; intros [Hl Hd]; split; try assumption; intros c Hc;
      apply is_digit_spec, Hd, Hc.
Qed.

Lemma ten_digits_not_empty s : ten_digits s -> Js.truthy s = true.
Proof. intros [Hl _]. now destruct s. Qed.

Lemma truthy_false s : Js.truthy s = false <-> s = EmptyString.
Proof. destruct s; simpl; split; congruence. Qed.

Lemma restrictToNumber_value_spec input :
  restrictToNumber_value input = amount_sanitizer_spec input.
Proof.
  unfold restrictToNumber_value, amount_sanitizer_spec.
  set (kept := Js.keep_chars is_numeric_char input).
  pose proof (split_not_nil "." kept) as Hnil.
  pose proof (join_split "." kept) as Hjoin.
  destruct (Js.split "." kept) as [|p0 [|p1 rest]]; [contradiction|reflexivity|].
  assert (Hshort : (Js.truthy p1 && (2 <? String.length p1)) = false ->
                   String.substring 0 2 p1 = p1).
  { intros H. apply substring_short. apply andb_false_iff in H as [H|H].
    - apply truthy_false in H. subst. simpl. lia.
    - apply Nat.ltb_ge in H. exact H. }
  cbn [nth nth_error].
  destruct (Js.truthy p1 && (2 <? String.length p1)) eqn:E; [reflexivity|].
  rewrite (Hshort eq_refl).
  destruct rest as [|p2 rest]; [exact (eq_sym Hjoin)|reflexivity].
Qed.

Lemma restrictToNumber_value_sanitized input : sanitized (restrictToNumber_value input).
Proof.
  rewrite restrictToNumber_value_spec. unfold amount_sanitizer_spec, sanitized.
  set (kept := Js.keep_chars is_numeric_char input).
  pose proof (split_not_nil "." kept) as Hnil.
  pose proof (join_split "." kept) as Hjoin.
  pose proof (split_digits kept (all_chars_keep _ _)) as Hd.
  destruct (Js.split "." kept) as [|p0 [|p1 rest]]; [contradiction| |].
  - left. simpl in Hjoin. subst p0. now inversion Hd.
  - right. exists p0, (String.substring 0 2 p1).
    inversion Hd as [|? ? H0 Hd']; subst. inversion Hd' as [|? ? H1 _]; subst.
    repeat split; auto using all_chars_substring, substring_length_le.
Qed.

(** C6: the text [restrictToNumber] writes back depends on the text of the
    input alone; it is the input stripped of everything but digits and
    decimal points, of which the first segment and, when a decimal point is
    present, the first fractional segment cut to two digits are kept; the
    three sample inputs map as stated. *)
Theorem C6_amount_sanitizer :
  (forall input this,
      fst (fst (restrictToNumber input this)) = restrictToNumber_value input) /\
  (forall input, restrictToNumber_value input = amount_sanitizer_spec input) /\
  (forall input, sanitized (restrictToNumber_value input)) /\
  restrictToNumber_value "12.3.45" = "12.3" /\
  restrictToNumber_value "12.345" = "12.34" /\
  restrictToNumber_value "abc12.5xyz" = "12.5".
Proof.
  split; [|split; [|split]].
  - intros input this. unfold restrictToNumber.
    now destruct (consumerDetails this).
  - exact restrictToNumber_value_spec.
  - exact restrictToNumber_value_sanitized.
  - repeat split; reflexivity.
Qed.

(** ** Phone validity and the payment payload *)

Lemma isPhoneNumberValid_spec this :
  isPhoneNumberValid this = true <->
  phoneNumber this = EmptyString \/ ten_digits (phoneNumber this).
Proof.
  unfold isPhoneNumberValid.
  rewrite orb_true_iff, negb_true_iff, truthy_false, test_ten_digits_spec.
  reflexivity.
Qed.

Lemma payload_number this details :
  Payment.number (paymentPayload this details) =
  if Js.test_ten_digits (phoneNumber this) then Some (phoneNumber this) else None.
Proof.
  unfold paymentPayload, isPhoneNumberValid. cbn [Payment.number].
  destruct (Js.test_ten_digits (phoneNumber this)) eqn:E.
  - apply test_ten_digits_spec, ten_digits_not_empty in E. now rewrite E.
  - destruct (Js.truthy (phoneNumber this)); reflexivity.
Qed.

(** C8: the phone number is valid iff it is empty or exactly ten digits
    (the four samples included); the payload built by [onProceedToPay]
    carries [number] iff the phone number is exactly ten digits, and then
    [number] is the phone number; that payload is the body of the POST. *)
Theorem C8_phone_validity_and_payload :
  (forall this,
      isPhoneNumberValid this = true <->
      phoneNumber this = EmptyString \/ ten_digits (phoneNumber this)) /\
  isPhoneNumberValid (set_phoneNumber "" initial) = true /\
  isPhoneNumberValid (set_phoneNumber "5551234567" initial) = true /\
  isPhoneNumberValid (set_phoneNumber "555123" initial) = false /\
  isPhoneNumberValid (set_phoneNumber "55512345678" initial) = false /\
  (forall this details,
      (Payment.number (paymentPayload this details) <> None <->
       phoneNumber this <> EmptyString /\ isPhoneNumberValid this = true) /\
      (Payment.number (paymentPayload this details) <> None <->
       ten_digits (phoneNumber this)) /\
      (forall n, Payment.number (paymentPayload this details) = Some n ->
                 n = phoneNumber this)) /\
  (forall w this details,
      consumerDetails this = Some details ->
      isLoading this = false ->
      snd (onProceedToPay (Some w) this) =
      [WindowOpen;
       HttpPost payment_endpoint
         {| Payment.name := name details;
            Payment.fileNumber := accountNumber this;
            Payment.amount := amount details;
            Payment.number := Payment.number (paymentPayload this details) |}
         [("Content-Type", "application/json")]]).
Proof.
  split; [exact isPhoneNumberValid_spec|].
  do 4 (split; [reflexivity|]).
  split.
  - intros this details. rewrite payload_number.
    destruct (Js.test_ten_digits (phoneNumber this)) eqn:E.
    + pose proof E as Ht. apply test_ten_digits_spec in Ht.
      pose proof (ten_digits_not_empty _ Ht) as Hne.
      split; [|split].
      * split; [intros _|discriminate]. split.
        -- intros Heq. rewrite Heq in Hne. discriminate.
        -- apply isPhoneNumberValid_spec. now right.
      * split; [intros _; exact Ht|discriminate].
      * intros n Hn. congruence.
    + assert (Hn : ~ ten_digits (phoneNumber this)).
      { rewrite <- test_ten_digits_spec. congruence. }
      split; [|split].
      * split; [congruence|]. intros [Hne Hv].
        apply isPhoneNumberValid_spec in Hv. tauto.
      * split; [congruence|tauto].
      * discriminate.
  - intros w this details Hd Hl. unfold onProceedToPay. rewrite Hd, Hl.
    reflexivity.
Qed.

Lemma C8_phone_validity_and_payload_witness :
  snd (onProceedToPay (Some 7) ready_to_pay) =
  [WindowOpen;
   HttpPost payment_endpoint
     {| Payment.name := "Jane";
        Payment.fileNumber := "ACC-1";
        Payment.amount := Js.zero;
        Payment.number := Some "5551234567" |}
     [("Content-Type", "application/json")]].
Proof.
  destruct C8_phone_validity_and_payload as [_ [_ [_ [_ [_ [_ H]]]]]].
  exact (H 7 ready_to_pay
           {| name := "Jane"; dueDate := "2025-01-01"; amount := Js.zero |}
           eq_refl eq_refl).
Defined.

(** ** The loading gate and the validation guards *)

Lemma truthy_true s : Js.truthy s = true <-> s <> EmptyString.
Proof. destruct s; simpl; split; congruence. Qed.

(** C1, as stated, fails: with a request pending, a lookup on an empty
    account field still sets the validation error and clears the consumer
    details, and a payment initiation without consumer details still sets
    its error. *)
Lemma C1_counterexample :
  isLoading pending_payment_blank_account = true /\
  fst (onGetDetails pending_payment_blank_account) <> pending_payment_blank_account /\
  consumerDetails (fst (onGetDetails pending_payment_blank_account)) = None /\
  errorMessage (fst (onGetDetails pending_payment_blank_account)) =
    Some (Plain "Please enter an account number") /\
  isLoading pending_lookup = true /\
  fst (onProceedToPay (Some 0) pending_lookup) <> pending_lookup /\
  errorMessage (fst (onProceedToPay (Some 0) pending_lookup)) =
    Some (Plain "No consumer details available to proceed with payment.").
Proof.
  repeat split; try reflexivity; discriminate.
Qed.

(** C1, amended: with [isLoading] set, neither operation performs an
    effect (no network call, no tab opened); a lookup with a non-empty
    account number and a payment initiation with consumer details leave the
    view-state as it is; otherwise the validation guard of the operation,
    which stands before the loading gate, writes its error message (the
    lookup also clears the consumer details) and nothing else. *)
Theorem C1_loading_gate this :
  isLoading this = true ->
  snd (onGetDetails this) = [] /\
  (forall w, snd (onProceedToPay w this) = []) /\
  (accountNumber this <> EmptyString -> onGetDetails this = (this, [])) /\
  (consumerDetails this <> None -> forall w, onProceedToPay w this = (this, [])) /\
  (accountNumber this = EmptyString ->
   fst (onGetDetails this) =
   {| accountNumber := accountNumber this;
      phoneNumber := phoneNumber this;
      consumerDetails := None;
      errorMessage := Some (Plain "Please enter an account number");
      isLoading := true |}) /\
  (consumerDetails this = None ->
   forall w,
     fst (onProceedToPay w this) =
     {| accountNumber := accountNumber this;
        phoneNumber := phoneNumber this;
        consumerDetails := None;
        errorMessage :=
          Some (Plain "No consumer details available to proceed with payment.");
        isLoading := true |}).
Proof.
  intros Hl. unfold onGetDetails, onProceedToPay. rewrite Hl.
  destruct this as [acct phone details err loading]; simpl in *. subst loading.
  repeat split.
  - now destruct (Js.truthy acct).
  - intros w. now destruct details.
  - intros Hne. apply truthy_true in Hne. now rewrite Hne.
  - intros Hd w. now destruct details.
  - intros ->. reflexivity.
  - intros -> w. reflexivity.
Qed.

Lemma C1_loading_gate_witness :
  onGetDetails pending_lookup = (pending_lookup, []) /\
  forall w, onProceedToPay w pending_payment_blank_account
            = (pending_payment_blank_account, []).
Proof.
  pose proof (C1_loading_gate pending_lookup eq_refl) as [_ [_ [H _]]].
  pose proof (C1_loading_gate pending_payment_blank_account eq_refl)
    as [_ [_ [_ [H' _]]]].
  split; [apply H; discriminate|apply H'; discriminate].
Defined.

(** What a lookup that passes both guards returns. *)
Lemma onGetDetails_starts this :
  accountNumber this <> EmptyString ->
  isLoading this = false ->
  fst (onGetDetails this) =
  {| accountNumber := accountNumber this;
     phoneNumber := EmptyString;
     consumerDetails := None;
     errorMessage := None;
     isLoading := true |} /\
  snd (onGetDetails this)
  = [HttpGet (lookup_endpoint ++ Js.encodeURIComponent (accountNumber this))].
Proof.
  destruct this as [acct phone details err loading].
  unfold onGetDetails; simpl.
  intros Hne ->. apply truthy_true in Hne. rewrite Hne. split; reflexivity.
Qed.

(** ** Local validation *)

(** C2, as stated, fails: an account number that is one space passes the
    guard, and the lookup request is sent for it. *)
Lemma C2_counterexample :
  Js.all_chars Js.is_ascii_space " " = true /\
  onGetDetails (set_accountNumber " " initial) =
  ({| accountNumber := " ";
      phoneNumber := "";
      consumerDetails := None;
      errorMessage := None;
      isLoading := true |},
   [HttpGet "https://api.perfectfinmart.xyz/api/v1/wp-payment?FileNumber=%20"]) /\
  errorMessage (fst (onGetDetails (set_accountNumber " " initial)))
  <> Some (Plain "Please enter an account number") /\
  network_calls (snd (onGetDetails (set_accountNumber " " initial))) <> [].
Proof. repeat split; try reflexivity; discriminate. Qed.

(** C2, amended: for the empty account identifier, whatever the rest of
    the view-state, the lookup sets the error message to
    'Please enter an account number', clears the consumer details, changes
    nothing else and performs no effect; every other identifier, those made
    of white space included, passes this guard, and with no request pending
    the lookup request is sent for it. *)
Theorem C2_empty_account this :
  (accountNumber this = EmptyString ->
   onGetDetails this =
   ({| accountNumber := EmptyString;
       phoneNumber := phoneNumber this;
       consumerDetails := None;
       errorMessage := Some (Plain "Please enter an account number");
       isLoading := isLoading this |}, [])) /\
  (accountNumber this <> EmptyString ->
   isLoading this = false ->
   onGetDetails this =
   ({| accountNumber := accountNumber this;
       phoneNumber := EmptyString;
       consumerDetails := None;
       errorMessage := None;
       isLoading := true |},
    [HttpGet (lookup_endpoint ++ Js.encodeURIComponent (accountNumber this))])).
Proof.
  destruct this as [acct phone details err loading].
  unfold onGetDetails; simpl. split.
  - intros ->. reflexivity.
  - intros Hne ->. apply truthy_true in Hne. rewrite Hne. reflexivity.
Qed.

Lemma C2_empty_account_witness :
  onGetDetails pending_payment_blank_account =
  ({| accountNumber := "";
      phoneNumber := "5551234567";
      consumerDetails := None;
      errorMessage := Some (Plain "Please enter an account number");
      isLoading := true |}, []).
Proof.
  exact (proj1 (C2_empty_account pending_payment_blank_account) eq_refl).
Defined.

(** ** The lookup response *)

(** Twice [number_42_5] is the Number 85, and it is the Number that the
    literal 42.5 denotes. *)
Lemma number_42_5_value :
  SFmul Js.prec Js.emax number_42_5 (Js.of_decimal false 2 0) = Js.of_decimal false 85 0 /\
  Js.of_decimal false 425 (-1) = number_42_5 /\
  valid_binary Js.prec Js.emax number_42_5 = true.
Proof. repeat split; vm_compute; reflexivity. Qed.

Lemma or_default_none d : Js.or_default None d = d.
Proof. reflexivity. Qed.

Lemma or_default_some s d : s <> EmptyString -> Js.or_default (Some s) d = s.
Proof. intros H. now destruct s. Qed.

(** C3: the sample response gives the consumer details Jane, 2025-01-01
    and 42.5, the phone number 5551234567 and no error message; for every
    successful response with a payload, a missing name, due date, amount or
    phone number is replaced by 'Unknown Name', 'Unknown Due Date', 0 and the
    empty string, and a name, due date or phone number that is present and
    not empty is taken as it is. *)
Theorem C3_successful_lookup :
  (forall this,
      onGetDetails_next jane_response this =
      ({| accountNumber := accountNumber this;
          phoneNumber := "5551234567";
          consumerDetails :=
            Some {| name := "Jane"; dueDate := "2025-01-01"; amount := number_42_5 |};
          errorMessage := None;
          isLoading := isLoading this |},
       [DetectChanges])) /\
  (forall p this,
      exists d,
        consumerDetails (fst (onGetDetails_next (success_response p) this)) = Some d /\
        errorMessage (fst (onGetDetails_next (success_response p) this)) = None /\
        (payload_name p = None -> name d = "Unknown Name") /\
        (Lookup.dueDate p = None -> dueDate d = "Unknown Due Date") /\
        (Lookup.totalAmount p = None -> amount d = Js.zero) /\
        (payload_phone p = None ->
         phoneNumber (fst (onGetDetails_next (success_response p) this)) = EmptyString) /\
        (forall n, payload_name p = Some n -> n <> EmptyString -> name d = n) /\
        (forall n, Lookup.dueDate p = Some n -> n <> EmptyString -> dueDate d = n) /\
        (forall n, payload_phone p = Some n -> n <> EmptyString ->
                   phoneNumber (fst (onGetDetails_next (success_response p) this)) = n)).
Proof.
  split.
  - intros this. vm_compute. reflexivity.
  - intros p this. unfold onGetDetails_next, success_response.
    cbn [Lookup.message Lookup.data Lookup.payload Js.strict_eq Js.chain
         String.eqb Ascii.eqb Bool.eqb negb fst].
    fold (payload_name p). fold (payload_phone p).
    eexists. split; [reflexivity|]. split; [reflexivity|].
    cbn [name dueDate amount phoneNumber set_errorMessage set_phoneNumber].
    repeat split.
    + intros ->. reflexivity.
    + intros ->. reflexivity.
    + intros ->. reflexivity.
    + intros ->. reflexivity.
    + intros n -> Hn. now apply or_default_some.
    + intros n -> Hn. now apply or_default_some.
    + intros n -> Hn. now apply or_default_some.
Qed.

(** C7, as stated, fails: a message that is present and empty is replaced
    by the generic fallback. *)
Lemma C7_counterexample :
  let response := {| Lookup.message := Some ""; Lookup.data := None |} in
  Lookup.message response <> None /\
  Lookup.message response <> Some "SUCCESS" /\
  errorMessage (fst (onGetDetails_next response initial))
  = Some (Plain "An error occurred while fetching details.") /\
  errorMessage (fst (onGetDetails_next response initial)) <> Some (Plain "").
Proof. repeat split; try reflexivity; discriminate. Qed.

(** C7, amended: for a response that is an object and whose message is
    not SUCCESS (exact case) the consumer details become null, nothing but
    the error message changes besides, and the error message is the message
    of the server when that is a non-empty string, the generic fallback when
    the message is absent from the object or empty. When the body is null,
    reading its message throws before anything is written: the handler
    leaves the consumer details and the error message as they were, no
    fallback is shown, and the completion that follows clears the loading
    flag and nothing else. *)
Theorem C7_rejected_lookup this :
  (forall response,
      Lookup.message response <> Some "SUCCESS" ->
      onGetDetails_next_body (Some response) this =
      ({| accountNumber := accountNumber this;
          phoneNumber := phoneNumber this;
          consumerDetails := None;
          errorMessage :=
            Some (Plain
              match Lookup.message response with
              | Some (String c m) => String c m
              | Some EmptyString | None => "An error occurred while fetching details."
              end);
          isLoading := isLoading this |},
       [])) /\
  onGetDetails_next_body None this = (this, []) /\
  fst (fst (deliver lookup_body_observer (notifications (Responded None)) this))
  = {| accountNumber := accountNumber this;
       phoneNumber := phoneNumber this;
       consumerDetails := consumerDetails this;
       errorMessage := errorMessage this;
       isLoading := false |}.
Proof.
  split; [|split; reflexivity].
  intros response Hm. unfold onGetDetails_next_body, onGetDetails_next, Js.strict_eq.
  destruct (Lookup.message response) as [m|] eqn:E.
  - destruct (String.eqb_spec m "SUCCESS") as [->|Hne]; [contradiction|].
    destruct m; reflexivity.
  - reflexivity.
Qed.

Lemma C7_rejected_lookup_witness :
  onGetDetails_next_body
    (Some {| Lookup.message := Some "not found"; Lookup.data := None |})
    pending_lookup
  = ({| accountNumber := "ACC-1";
        phoneNumber := "";
        consumerDetails := None;
        errorMessage := Some (Plain "not found");
        isLoading := true |}, []).
Proof.
  apply (proj1 (C7_rejected_lookup pending_lookup)
           {| Lookup.message := Some "not found"; Lookup.data := None |}).
  discriminate.
Defined.

(** ** The phone number across a lookup *)

Lemma failed_next_keeps_phone response this :
  lookup_succeeds response = false ->
  phoneNumber (fst (onGetDetails_next response this)) = phoneNumber this.
Proof.
  unfold lookup_succeeds, onGetDetails_next. intros H.
  destruct (Js.strict_eq (Lookup.message response) "SUCCESS"); [|reflexivity].
  destruct (Js.chain (Lookup.data response) Lookup.payload);
    [discriminate|reflexivity].
Qed.

Lemma failed_lookup_keeps_phone o this :
  lookup_fails o = true ->
  phoneNumber (fst (fst (deliver lookup_observer (notifications o) this)))
  = phoneNumber this.
Proof.
  destruct o as [body| |]; simpl; intros H; try reflexivity.
  apply negb_true_iff in H.
  pose proof (failed_next_keeps_phone body this H) as Hp.
  destruct (onGetDetails_next body this) as [this1 es1]. exact Hp.
Qed.

(** C9: a lookup that passes both guards sends exactly the lookup request
    and returns with the phone number empty, whatever it was; no handler of
    a request that fails (error, timeout, rejection, missing payload) writes
    the phone number, in whatever state it runs, so after a failing lookup
    the phone number is empty. *)
Theorem C9_phone_reset this :
  accountNumber this <> EmptyString ->
  isLoading this = false ->
  snd (onGetDetails this)
  = [HttpGet (lookup_endpoint ++ Js.encodeURIComponent (accountNumber this))] /\
  phoneNumber (fst (onGetDetails this)) = EmptyString /\
  (forall o later,
      lookup_fails o = true ->
      phoneNumber (fst (fst (deliver lookup_observer (notifications o) later)))
      = phoneNumber later) /\
  (forall o,
      lookup_fails o = true ->
      phoneNumber (fst (fst (lookup_run o this))) = EmptyString).
Proof.
  intros Hne Hl.
  destruct (onGetDetails_starts this Hne Hl) as [Hst Hes].
  split; [exact Hes|]. split; [now rewrite Hst|].
  split; [intros o later; apply failed_lookup_keeps_phone|].
  intros o Ho. unfold lookup_run.
  destruct (onGetDetails this) as [this1 es1]; simpl in Hst, Hes. subst es1.
  cbn [network_calls filter is_network_call].
  pose proof (failed_lookup_keeps_phone o this1 Ho) as Hp.
  destruct (deliver lookup_observer (notifications o) this1) as [[this2 es2] hs].
  simpl in *. now rewrite Hp, Hst.
Qed.

Lemma C9_phone_reset_witness :
  phoneNumber
    (fst (fst (lookup_run TimedOut
                 (set_phoneNumber "5551234567" (set_accountNumber "ACC-1" initial)))))
  = EmptyString.
Proof.
  apply (C9_phone_reset
           (set_phoneNumber "5551234567" (set_accountNumber "ACC-1" initial)));
    [discriminate|reflexivity|reflexivity].
Defined.

(** ** The payment response *)

Lemma append_assoc (a b c : string) : (a ++ b) ++ c = a ++ (b ++ c).
Proof. induction a as [|x a IH]; simpl; [reflexivity|now rewrite IH]. Qed.

(** The markup of the invalid-link message, written flat. *)
Lemma invalid_url_html_flat link :
  invalid_url_html link =
  "Invalid payment URL. Please try again or <a href="
  ++ Js.dquote ++ link ++ Js.dquote
  ++ " class=" ++ Js.dquote ++ "fallback-link" ++ Js.dquote
  ++ ">click here</a> to proceed with payment.".
Proof.
  unfold invalid_url_html, fallback_link, attr.
  rewrite !append_assoc. reflexivity.
Qed.

(** C5, as stated, fails: the empty link is a string that fails URL
    parsing, but it is falsy, so the response counts as one without a link:
    the tab is closed and the loading flag cleared, but the message is the
    plain generic one, with no anchor. *)
Lemma C5_counterexample :
  scheme_parser "" = None /\
  onProceedToPay_next scheme_parser 7 (link_response "") pending_payment =
  ({| accountNumber := "ACC-1";
      phoneNumber := "5551234567";
      consumerDetails :=
        Some {| name := "Jane"; dueDate := "2025-01-01"; amount := number_42_5 |};
      errorMessage := Some (Plain "Failed to generate payment link. Please try again.");
      isLoading := false |},
   [WindowClose 7; DetectChanges]) /\
  is_markup
    (errorMessage
       (fst (onProceedToPay_next scheme_parser 7 (link_response "") pending_payment)))
  = false.
Proof. repeat split; reflexivity. Qed.

(** C5, amended: for every response whose message is Success and whose
    link is a non-empty string that fails URL parsing, the opened tab is
    closed, the loading flag is cleared, and the error message is markup
    whose anchor has the raw link text as its href; nothing else changes.
    An empty link counts as a missing link, whatever the parser says of it:
    the tab is closed, the loading flag is cleared and the plain message
    'Failed to generate payment link. Please try again.' is shown. *)
Theorem C5_malformed_link new_URL tempWindow response d this :
  Payment.message response = Some "Success" ->
  Payment.data response = Some d ->
  (forall link,
      Payment.link d = Some link ->
      link <> EmptyString ->
      new_URL link = None ->
      onProceedToPay_next new_URL tempWindow response this =
      ({| accountNumber := accountNumber this;
          phoneNumber := phoneNumber this;
          consumerDetails := consumerDetails this;
          errorMessage :=
            Some (Markup
              ("Invalid payment URL. Please try again or <a href="
               ++ Js.dquote ++ link ++ Js.dquote
               ++ " class=" ++ Js.dquote ++ "fallback-link" ++ Js.dquote
               ++ ">click here</a> to proceed with payment."));
          isLoading := false |},
       [WindowClose tempWindow; DetectChanges])) /\
  (Payment.link d = Some EmptyString ->
   onProceedToPay_next new_URL tempWindow response this =
   ({| accountNumber := accountNumber this;
       phoneNumber := phoneNumber this;
       consumerDetails := consumerDetails this;
       errorMessage :=
         Some (Plain "Failed to generate payment link. Please try again.");
       isLoading := false |},
    [WindowClose tempWindow; DetectChanges])).
Proof.
  intros Hm Hd. unfold onProceedToPay_next.
  rewrite Hm, Hd. cbn [Js.strict_eq Js.chain String.eqb Ascii.eqb Bool.eqb].
  split.
  - intros link Hl Hne Hp.
    rewrite Hl. cbn [Js.if_truthy]. apply truthy_true in Hne. rewrite Hne, Hp.
    now rewrite invalid_url_html_flat.
  - intros Hl. rewrite Hl. reflexivity.
Qed.

Lemma C5_malformed_link_witness :
  errorMessage
    (fst (onProceedToPay_next scheme_parser 7 (link_response "not a url") pending_payment))
  = Some (Markup
      ("Invalid payment URL. Please try again or <a href="
       ++ Js.dquote ++ "not a url" ++ Js.dquote
       ++ " class=" ++ Js.dquote ++ "fallback-link" ++ Js.dquote
       ++ ">click here</a> to proceed with payment.")) /\
  onProceedToPay_next scheme_parser 7 (link_response "") pending_payment
  = ({| accountNumber := "ACC-1";
        phoneNumber := "5551234567";
        consumerDetails := consumerDetails pending_payment;
        errorMessage :=
          Some (Plain "Failed to generate payment link. Please try again.");
        isLoading := false |},
     [WindowClose 7; DetectChanges]).
Proof.
  split.
  - rewrite (proj1 (C5_malformed_link scheme_parser 7 (link_response "not a url")
                      {| Payment.link := Some "not a url" |} pending_payment
                      eq_refl eq_refl)
               "not a url" eq_refl).
    + reflexivity.
    + discriminate.
    + reflexivity.
  - exact (proj2 (C5_malformed_link scheme_parser 7 (link_response "")
                    {| Payment.link := Some "" |} pending_payment
                    eq_refl eq_refl)
             eq_refl).
Defined.

(** ** Completion of a request *)

Lemma one_outcome_handler_count hs :
  one_outcome_handler hs -> times_run RanNext hs + times_run RanError hs = 1.
Proof. intros [->| ->]; reflexivity. Qed.

Lemma lookup_delivered o this :
  isLoading (fst (fst (deliver lookup_observer (notifications o) this))) = false /\
  one_outcome_handler (snd (deliver lookup_observer (notifications o) this)).
Proof.
  unfold one_outcome_handler.
  destruct o as [body|e|]; cbn [notifications deliver lookup_observer next error complete].
  - destruct (onGetDetails_next body this) as [this1 es1]. simpl. auto.
  - simpl. auto.
  - simpl. auto.
Qed.

Lemma payment_delivered new_URL w o this :
  isLoading (fst (fst (deliver (payment_observer new_URL w) (notifications o) this)))
  = false /\
  one_outcome_handler (snd (deliver (payment_observer new_URL w) (notifications o) this)).
Proof.
  unfold one_outcome_handler.
  destruct o as [body|e|]; cbn [notifications deliver payment_observer next error complete].
  - destruct (onProceedToPay_next new_URL w body this) as [this1 es1]. simpl. auto.
  - simpl. auto.
  - simpl. auto.
Qed.

(** What a payment initiation that passes both guards and gets its tab
    returns. *)
Lemma onProceedToPay_starts w this details :
  consumerDetails this = Some details ->
  isLoading this = false ->
  exists body,
    onProceedToPay (Some w) this =
    ({| accountNumber := accountNumber this;
        phoneNumber := phoneNumber this;
        consumerDetails := Some details;
        errorMessage := None;
        isLoading := true |},
     [WindowOpen; HttpPost payment_endpoint body [("Content-Type", "application/json")]]).
Proof.
  destruct this as [acct phone cd err loading]; simpl.
  intros -> ->. unfold onProceedToPay; simpl.
  eexists. reflexivity.
Qed.

(** C4: a lookup or a payment initiation that issued its request ends
    with [isLoading] false for every outcome of the request (a response of
    either kind, an error of any name and status, the timeout), and of the
    [next] and [error] handlers exactly one has run; the same holds of the
    handlers in whatever state the notifications find the component. *)
Theorem C4_loading_cleared new_URL :
  (forall this o,
      accountNumber this <> EmptyString ->
      isLoading this = false ->
      isLoading (fst (fst (lookup_run o this))) = false /\
      one_outcome_handler (snd (lookup_run o this)) /\
      times_run RanNext (snd (lookup_run o this))
      + times_run RanError (snd (lookup_run o this)) = 1) /\
  (forall this details w o,
      consumerDetails this = Some details ->
      isLoading this = false ->
      isLoading (fst (fst (payment_run new_URL (Some w) o this))) = false /\
      one_outcome_handler (snd (payment_run new_URL (Some w) o this)) /\
      times_run RanNext (snd (payment_run new_URL (Some w) o this))
      + times_run RanError (snd (payment_run new_URL (Some w) o this)) = 1) /\
  (forall o later,
      isLoading (fst (fst (deliver lookup_observer (notifications o) later))) = false /\
      one_outcome_handler (snd (deliver lookup_observer (notifications o) later))) /\
  (forall w o later,
      isLoading
        (fst (fst (deliver (payment_observer new_URL w) (notifications o) later)))
      = false /\
      one_outcome_handler
        (snd (deliver (payment_observer new_URL w) (notifications o) later))).
Proof.
  split; [|split; [|split]].
  - intros this o Hne Hl.
    destruct (onGetDetails_starts this Hne Hl) as [Hst Hes].
    unfold lookup_run.
    destruct (onGetDetails this) as [this1 es1]; simpl in Hst, Hes. subst es1.
    cbn [network_calls filter is_network_call].
    pose proof (lookup_delivered o this1) as [H1 H2].
    destruct (deliver lookup_observer (notifications o) this1) as [[this2 es2] hs].
    simpl in *. auto using one_outcome_handler_count.
  - intros this details w o Hd Hl.
    destruct (onProceedToPay_starts w this details Hd Hl) as [body Hst].
    unfold payment_run. rewrite Hst.
    cbn [network_calls filter is_network_call].
    pose proof (payment_delivered new_URL w o
                  {| accountNumber := accountNumber this;
                     phoneNumber := phoneNumber this;
                     consumerDetails := Some details;
                     errorMessage := None;
                     isLoading := true |}) as [H1 H2].
    destruct (deliver (payment_observer new_URL w) (notifications o) _)
      as [[this2 es2] hs].
    simpl in *. auto using one_outcome_handler_count.
  - exact lookup_delivered.
  - exact (payment_delivered new_URL).
Qed.

Lemma C4_loading_cleared_witness :
  isLoading
    (fst (fst (lookup_run (Responded jane_response) (set_accountNumber "ACC-1" initial))))
  = false /\
  isLoading
    (fst (fst (payment_run scheme_parser (Some 7) TimedOut
                 (set_isLoading false pending_payment))))
  = false.
Proof.
  destruct (C4_loading_cleared scheme_parser) as [Hlookup [Hpay _]].
  split.
  - apply Hlookup; [discriminate|reflexivity].
  - apply (Hpay (set_isLoading false pending_payment)
             {| name := "Jane"; dueDate := "2025-01-01"; amount := number_42_5 |});
      reflexivity.
Defined.

(** ** Consumer details and error message *)

Lemma next_at_most_one response this :
  at_most_one_non_null (fst (onGetDetails_next response this)).
Proof.
  unfold at_most_one_non_null, onGetDetails_next.
  destruct (negb _); [now left|].
  destruct (Js.chain (Lookup.data response) Lookup.payload); [now right|now left].
Qed.

Lemma lookup_delivered_at_most_one o this :
  at_most_one_non_null (fst (fst (deliver lookup_observer (notifications o) this))).
Proof.
  destruct o as [body|e|]; cbn [notifications deliver lookup_observer next error complete].
  - pose proof (next_at_most_one body this) as H.
    destruct (onGetDetails_next body this) as [this1 es1]. exact H.
  - now left.
  - now left.
Qed.

Lemma handle_loading_inv new_URL ev this :
  loading_inv this -> loading_inv (handle new_URL ev this).
Proof.
  unfold loading_inv. intros IH.
  destruct ev as [v|v|input| |w|n|w n]; cbn [handle].
  - exact IH.
  - exact IH.
  - unfold restrictToNumber, at_most_one_non_null in *.
    destruct (consumerDetails this) as [d|] eqn:E; cbn; [|now rewrite E].
    intros Hl. destruct (IH Hl) as [H|H]; [discriminate|now right].
  - unfold onGetDetails. destruct (negb _); [intros _; now left|].
    destruct (isLoading this) eqn:E; cbn; [now rewrite E|intros _; now left].
  - unfold onProceedToPay.
    destruct (consumerDetails this) as [d|] eqn:E; [|intros _; left; exact E].
    destruct (isLoading this) eqn:El; cbn; [now rewrite El|].
    destruct w; cbn; [intros _; now right|discriminate].
  - destruct n as [r|e|]; cbn.
    + intros _. pose proof (next_at_most_one r this) as H.
      destruct (onGetDetails_next r this). exact H.
    + discriminate.
    + discriminate.
  - destruct n as [r|e|]; cbn; try discriminate.
    unfold onProceedToPay_next.
    destruct (if Js.strict_eq (Payment.message r) "Success" then _ else None)
      as [l|]; cbn; try discriminate.
    destruct (new_URL l); cbn; [exact IH|discriminate].
Qed.

Lemma reachable_loading_inv new_URL this : reachable new_URL this -> loading_inv this.
Proof.
  induction 1 as [|ev this _ IH].
  - discriminate.
  - now apply handle_loading_inv.
Qed.

(** C10: in every state the component can reach, an invocation of the
    lookup ends with at most one of the consumer details and the error
    message set, whether it stops at the validation guard, is ignored
    because a request is pending, or runs its request to any outcome; and
    the handlers of the request leave at most one of the two set in
    whatever state its notifications find the component. *)
Theorem C10_details_or_error new_URL this :
  reachable new_URL this ->
  (forall o, at_most_one_non_null (fst (fst (lookup_run o this)))) /\
  at_most_one_non_null (fst (onGetDetails this)) /\
  (forall o later,
      at_most_one_non_null
        (fst (fst (deliver lookup_observer (notifications o) later)))).
Proof.
  intros Hr. apply reachable_loading_inv in Hr.
  assert (Hsync : at_most_one_non_null (fst (onGetDetails this))).
  { unfold onGetDetails. destruct (negb _); [now left|].
    destruct (isLoading this) eqn:E; [exact (Hr E)|now left]. }
  split; [|split; [exact Hsync|exact lookup_delivered_at_most_one]].
  intros o. unfold lookup_run.
  destruct (onGetDetails this) as [this1 es1]. simpl in Hsync.
  destruct (network_calls es1); [exact Hsync|].
  pose proof (lookup_delivered_at_most_one o this1) as H.
  destruct (deliver lookup_observer (notifications o) this1) as [[this2 es2] hs].
  exact H.
Qed.

Lemma C10_details_or_error_witness :
  at_most_one_non_null
    (fst (fst (lookup_run (Responded jane_response)
                 (handle scheme_parser (EditAccountNumber "ACC-1") initial)))).
Proof.
  apply (C10_details_or_error scheme_parser
           (handle scheme_parser (EditAccountNumber "ACC-1") initial)).
  apply reachable_handle. apply reachable_initial.
Defined.

(** * Further properties *)

(** ** The keystroke filter *)

Lemma keep_chars_id p s : Js.all_chars p s = true -> Js.keep_chars p s = s.
Proof.
  induction s as [|c r IH]; simpl; [reflexivity|].
  intros H. apply andb_prop in H as [Hc Hr]. now rewrite Hc, IH.
Qed.

Lemma digit_is_numeric c : Js.is_digit c = true -> is_numeric_char c = true.
Proof. unfold is_numeric_char. now intros ->. Qed.

Lemma digit_not_dot c : Js.is_digit c = true -> Js.is_dot c = false.
Proof.
  unfold Js.is_dot. destruct (Ascii.eqb_spec c ".") as [->|]; [discriminate|reflexivity].
Qed.

Lemma all_chars_impl (p q : ascii -> bool) s :
  (forall c, p c = true -> q c = true) ->
  Js.all_chars p s = true -> Js.all_chars q s = true.
Proof.
  intros Hpq. induction s as [|c r IH]; simpl; [reflexivity|].
  intros H. apply andb_prop in H as [Hc Hr]. now rewrite (Hpq c Hc), IH.
Qed.

Lemma split_digits_only s :
  Js.all_chars Js.is_digit s = true -> Js.split "." s = [s].
Proof.
  intros H. apply split_no_point.
  apply (all_chars_impl Js.is_digit); [|exact H].
  intros c Hc. now rewrite digit_not_dot.
Qed.

Lemma split_point i f :
  Js.all_chars Js.is_digit i = true ->
  Js.split "." (i ++ String "." f) = i :: Js.split "." f.
Proof.
  induction i as [|c r IH]; simpl; [reflexivity|].
  intros H. apply andb_prop in H as [Hc Hr].
  pose proof (digit_not_dot c Hc) as Hd. unfold Js.is_dot in Hd. rewrite Hd.
  now rewrite (IH Hr).
Qed.

Lemma sanitized_fixed s : sanitized s -> restrictToNumber_value s = s.
Proof.
  rewrite restrictToNumber_value_spec. unfold amount_sanitizer_spec.
  intros [Hd|(i & f & -> & Hi & Hf & Hlen)].
  - rewrite (keep_chars_id is_numeric_char s),  (split_digits_only s Hd);
      [reflexivity|].
    exact (all_chars_impl _ _ s digit_is_numeric Hd).
  - rewrite keep_chars_id.
    + change (i ++ "." ++ f) with (i ++ String "." f).
      rewrite (split_point i f Hi), (split_digits_only f Hf).
      now rewrite (substring_short f Hlen).
    + rewrite !all_chars_append.
      rewrite (all_chars_impl _ _ i digit_is_numeric Hi).
      rewrite (all_chars_impl _ _ f digit_is_numeric Hf).
      reflexivity.
Qed.

(** X1: the strings the filter leaves as they are are exactly the strings
    of digits and the strings of digits, one decimal point and at most two
    digits; so filtering a second time changes nothing. *)
Theorem X1_filter_fixed_points :
  (forall s, restrictToNumber_value s = s <-> sanitized s) /\
  (forall s, restrictToNumber_value (restrictToNumber_value s) = restrictToNumber_value s).
Proof.
  split.
  - intros s. split; [|apply sanitized_fixed].
    intros H. rewrite <- H. apply restrictToNumber_value_sanitized.
  - intros s. apply sanitized_fixed, restrictToNumber_value_sanitized.
Qed.

(** ** The amount the filter stores *)

(** A digit or a decimal point is no white space, no sign, and does not
    start the word Infinity. *)
Lemma numeric_char_plain c :
  is_numeric_char c = true ->
  Js.is_ascii_space c = false /\
  (forall b, Js.is_space2 c b = false) /\
  (forall b d, Js.is_space3 c b d = false) /\
  Ascii.eqb c "-" = false /\
  Ascii.eqb c "+" = false /\
  Ascii.eqb "I" c = false.
Proof.
  destruct c as [[] [] [] [] [] [] [] []]; intros H;
    first [discriminate H | repeat split; reflexivity].
Qed.

Lemma numeric_trimStart s :
  Js.all_chars is_numeric_char s = true -> Js.trimStart s = s.
Proof.
  destruct s as [|a r]; [reflexivity|]. simpl. intros H.
  apply andb_prop in H as [Ha _].
  destruct (numeric_char_plain a Ha) as (H1 & H2 & H3 & _).
  rewrite H1. destruct r as [|b r2]; [reflexivity|]. rewrite H2.
  destruct r2 as [|d r3]; [reflexivity|]. now rewrite H3.
Qed.

Lemma numeric_sign s :
  Js.all_chars is_numeric_char s = true -> Js.sign_from s = (false, s).
Proof.
  destruct s as [|a r]; [reflexivity|]. simpl. intros H.
  apply andb_prop in H as [Ha _].
  destruct (numeric_char_plain a Ha) as (_ & _ & _ & H4 & H5 & _).
  now rewrite H4, H5.
Qed.

Lemma numeric_not_infinity s :
  Js.all_chars is_numeric_char s = true -> String.prefix "Infinity" s = false.
Proof.
  destruct s as [|a r]; [reflexivity|]. cbn [Js.all_chars]. intros H.
  apply andb_prop in H as [Ha _].
  destruct (numeric_char_plain a Ha) as (_ & _ & _ & _ & _ & H6).
  change (String.prefix "Infinity" (String a r))
    with (if ascii_dec "I" a then String.prefix "nfinity" r else false).
  destruct (ascii_dec "I" a) as [E|E]; [|reflexivity].
  subst a. discriminate H6.
Qed.

(** Rounding keeps the sign it is given. *)
Lemma binary_round_aux_sign sx mx ex lx :
  match binary_round_aux Js.prec Js.emax sx mx ex lx with
  | S754_zero s | S754_infinity s | S754_finite s _ _ => s = sx
  | S754_nan => True
  end.
Proof.
  unfold binary_round_aux.
  destruct (shr_fexp Js.prec Js.emax mx ex lx) as [mrs' e'].
  destruct (shr_fexp Js.prec Js.emax _ e' loc_Exact) as [mrs'' e''].
  destruct (shr_m mrs''); [reflexivity| |exact I].
  destruct (Z.leb e'' (Js.emax - Js.prec)); reflexivity.
Qed.

Lemma of_decimal_sign neg m e :
  match Js.of_decimal neg m e with
  | S754_zero s | S754_infinity s | S754_finite s _ _ => s = neg
  | S754_nan => True
  end.
Proof.
  destruct e as [|k|k]; unfold Js.of_decimal.
  - unfold binary_round. destruct (shl_align _ _ _) as [mz ez].
    apply binary_round_aux_sign.
  - unfold binary_round. destruct (shl_align _ _ _) as [mz ez].
    apply binary_round_aux_sign.
  - unfold SFdiv. destruct (SFdiv_core_binary _ _ _ _ _ _) as [[mz ez] lz].
    pose proof (binary_round_aux_sign (xorb neg false) mz ez lz) as H.
    destruct (binary_round_aux Js.prec Js.emax (xorb neg false) mz ez lz);
      try rewrite xorb_false_r in H; exact H.
Qed.

Lemma numeric_amount s :
  Js.all_chars is_numeric_char s = true ->
  is_amount (Js.or_zero (Js.parseFloat_string s)) = true.
Proof.
  intros H. unfold Js.parseFloat_string.
  rewrite (numeric_trimStart s H), (numeric_sign s H), (numeric_not_infinity s H).
  destruct (Js.digits_from 0 0 s) as [[ip ni] r1].
  destruct (match r1 with
            | EmptyString => (ip, 0, r1)
            | String c r =>
                if Js.is_dot c
                then let '(m, nf, r2) := Js.digits_from ip 0 r in (m, nf, r2)
                else (ip, 0, r1)
            end) as [[m nf] r2].
  assert (Hnum : is_amount
                   (Js.or_zero
                      match m with
                      | Zpos p => Js.of_decimal false p (Js.exponent_from r2 - Z.of_nat nf)
                      | _ => S754_zero false
                      end) = true).
  { destruct m as [|p|p]; try reflexivity.
    pose proof (of_decimal_sign false p (Js.exponent_from r2 - Z.of_nat nf)) as Hs.
    destruct (Js.of_decimal false p _) as [s0|s0| |s0 m0 e0]; try subst s0; reflexivity. }
  destruct ni, nf; try exact Hnum. reflexivity.
Qed.

Lemma sanitized_numeric s : sanitized s -> Js.all_chars is_numeric_char s = true.
Proof.
  intros [Hd|(i & f & -> & Hi & Hf & _)].
  - exact (all_chars_impl _ _ s digit_is_numeric Hd).
  - rewrite !all_chars_append.
    rewrite (all_chars_impl _ _ i digit_is_numeric Hi).
    rewrite (all_chars_impl _ _ f digit_is_numeric Hf).
    reflexivity.
Qed.

(** X2: a keystroke in the amount input, when consumer details are shown,
    stores an amount that is +0, a positive Number or +Infinity (never NaN,
    never negative, never -0), keeps the name and the due date and touches
    no other field; with no consumer details it leaves the view-state as it
    is and performs no effect. *)
Theorem X2_keystroke_amount input this :
  match consumerDetails this with
  | Some d =>
      exists x,
        is_amount x = true /\
        snd (fst (restrictToNumber input this)) =
        {| accountNumber := accountNumber this;
           phoneNumber := phoneNumber this;
           consumerDetails :=
             Some {| name := name d; dueDate := dueDate d; amount := x |};
           errorMessage := errorMessage this;
           isLoading := isLoading this |} /\
        snd (restrictToNumber input this) = [DetectChanges]
  | None =>
      snd (fst (restrictToNumber input this)) = this /\
      snd (restrictToNumber input this) = []
  end.
Proof.
  unfold restrictToNumber.
  destruct (consumerDetails this) as [d|]; [|split; reflexivity].
  eexists. split; [|split; reflexivity].
  apply numeric_amount, sanitized_numeric, restrictToNumber_value_sanitized.
Qed.

(** ** Consumer details in the reachable states *)

Lemma or_default_not_empty o d : d <> EmptyString -> Js.or_default o d <> EmptyString.
Proof.
  intros Hd. destruct o as [[|c s]|]; simpl; try exact Hd. discriminate.
Qed.

Lemma or_zero_ok x : Js.or_zero x <> S754_nan /\ Js.or_zero x <> S754_zero true.
Proof. destruct x as [[]|[]| |[] m e]; split; discriminate. Qed.

Lemma next_details_ok response this d :
  consumerDetails (fst (onGetDetails_next response this)) = Some d -> details_ok d.
Proof.
  unfold onGetDetails_next.
  destruct (negb _); [discriminate|].
  destruct (Js.chain (Lookup.data response) Lookup.payload) as [p|]; [|discriminate].
  cbn. intros H. injection H as <-. unfold details_ok; cbn.
  repeat split; try (apply or_default_not_empty; discriminate); apply or_zero_ok.
Qed.

Lemma handle_details_ok new_URL ev this :
  (forall d, consumerDetails this = Some d -> details_ok d) ->
  forall d, consumerDetails (handle new_URL ev this) = Some d -> details_ok d.
Proof.
  intros IH.
  destruct ev as [v|v|input| |w|n|w n]; cbn [handle].
  - exact IH.
  - exact IH.
  - unfold restrictToNumber.
    destruct (consumerDetails this) as [d0|] eqn:E; cbn; [|now rewrite E].
    intros d H. injection H as <-.
    destruct (IH d0 eq_refl) as (Hn & Hd & _).
    unfold details_ok; cbn. repeat split; auto; apply or_zero_ok.
  - unfold onGetDetails. destruct (negb _); [discriminate|].
    destruct (isLoading this); [exact IH|discriminate].
  - unfold onProceedToPay.
    destruct (consumerDetails this) as [d0|] eqn:E; cbn; [|now rewrite E].
    destruct (isLoading this); cbn; [now rewrite E|].
    destruct w; cbn; rewrite E; exact IH.
  - destruct n as [r|e|]; cbn.
    + pose proof (next_details_ok r this) as H.
      destruct (onGetDetails_next r this). exact H.
    + discriminate.
    + exact IH.
  - destruct n as [r|e|]; cbn; try exact IH.
    unfold onProceedToPay_next.
    destruct (if Js.strict_eq (Payment.message r) "Success" then _ else None)
      as [l|]; cbn; try exact IH.
    destruct (new_URL l); cbn; exact IH.
Qed.

(** X3: in every state the component reaches, whatever the server sent,
    consumer details that are shown have a non-empty name, a non-empty due
    date and an amount that is neither NaN nor -0. *)
Theorem X3_details_well_formed new_URL this d :
  reachable new_URL this ->
  consumerDetails this = Some d ->
  details_ok d.
Proof.
  intros Hr. revert d. induction Hr as [|ev this _ IH].
  - discriminate.
  - now apply handle_details_ok.
Qed.

Lemma X3_details_well_formed_witness :
  details_ok {| name := "Unknown Name"; dueDate := "2025-01-01"; amount := Js.zero |}.
Proof.
  apply (X3_details_well_formed scheme_parser
           (handle scheme_parser
              (LookupNotified
                 (Next (success_response
                          {| Lookup.customerDetails := None;
                             Lookup.dueDate := Some "2025-01-01";
                             Lookup.totalAmount := Some (Lookup.AmountString "n/a") |})))
              initial)).
  - apply reachable_handle, reachable_initial.
  - reflexivity.
Defined.

(** ** The lookup URL *)

Lemma hex_round_trip c :
  ascii_of_nat
    (16 * hex_val (Js.hex_digit (nat_of_ascii c / 16))
     + hex_val (Js.hex_digit (nat_of_ascii c mod 16))) = c.
Proof. destruct c as [[] [] [] [] [] [] [] []]; vm_compute; reflexivity. Qed.

Lemma hex_digit_unescaped c :
  Js.uri_unescaped (Js.hex_digit (nat_of_ascii c / 16)) = true /\
  Js.uri_unescaped (Js.hex_digit (nat_of_ascii c mod 16)) = true.
Proof. destruct c as [[] [] [] [] [] [] [] []]; vm_compute; split; reflexivity. Qed.

Lemma unescaped_not_percent c : Js.uri_unescaped c = true -> Ascii.eqb c "%" = false.
Proof.
  intros H. destruct (Ascii.eqb_spec c "%") as [->|]; [discriminate H|reflexivity].
Qed.

Lemma percent_decode_encode s : percent_decode (Js.encodeURIComponent s) = s.
Proof.
  induction s as [|c r IH]; [reflexivity|].
  cbn [Js.encodeURIComponent].
  destruct (Js.uri_unescaped c) eqn:E.
  - cbn [percent_decode]. now rewrite (unescaped_not_percent c E), IH.
  - unfold Js.percent_encode. cbn [append percent_decode Ascii.eqb Bool.eqb].
    now rewrite hex_round_trip, IH.
Qed.

Lemma encodeURIComponent_chars s :
  Js.all_chars is_query_char (Js.encodeURIComponent s) = true.
Proof.
  induction s as [|c r IH]; [reflexivity|].
  cbn [Js.encodeURIComponent].
  destruct (Js.uri_unescaped c) eqn:E.
  - cbn [Js.all_chars]. unfold is_query_char at 1. now rewrite E, IH.
  - unfold Js.percent_encode. cbn [append Js.all_chars].
    destruct (hex_digit_unescaped c) as [H1 H2].
    unfold is_query_char at 2 3. rewrite H1, H2, IH. reflexivity.
Qed.

Lemma encodeURIComponent_plain s :
  Js.all_chars Js.uri_unescaped s = true -> Js.encodeURIComponent s = s.
Proof.
  induction s as [|c r IH]; [reflexivity|]. cbn [Js.all_chars Js.encodeURIComponent].
  intros H. apply andb_prop in H as [Hc Hr]. now rewrite Hc, IH.
Qed.

Lemma append_inv_head p a b : p ++ a = p ++ b -> a = b.
Proof.
  induction p as [|c p IH]; simpl; [auto|].
  intros H. injection H as H. auto.
Qed.

(** X4: two lookups that pass the guards send the same request only when
    the account numbers are the same: the account number is read back from
    the query of the URL by undoing the escapes. *)
Theorem X4_lookup_url_injective this1 this2 :
  accountNumber this1 <> EmptyString -> isLoading this1 = false ->
  accountNumber this2 <> EmptyString -> isLoading this2 = false ->
  (snd (onGetDetails this1) = snd (onGetDetails this2) ->
   accountNumber this1 = accountNumber this2) /\
  snd (onGetDetails this1)
  = [HttpGet (lookup_endpoint ++ Js.encodeURIComponent (accountNumber this1))] /\
  percent_decode (Js.encodeURIComponent (accountNumber this1)) = accountNumber this1.
Proof.
  intros Hn1 Hl1 Hn2 Hl2.
  destruct (onGetDetails_starts this1 Hn1 Hl1) as [_ H1].
  destruct (onGetDetails_starts this2 Hn2 Hl2) as [_ H2].
  split; [|split; [exact H1|apply percent_decode_encode]].
  rewrite H1, H2. intros H.
  assert (H' : lookup_endpoint ++ Js.encodeURIComponent (accountNumber this1)
               = lookup_endpoint ++ Js.encodeURIComponent (accountNumber this2))
    by congruence.
  clear H. apply append_inv_head in H'. rename H' into H.
  rewrite <- (percent_decode_encode (accountNumber this1)), H.
  apply percent_decode_encode.
Qed.

Lemma X4_lookup_url_injective_witness :
  snd (onGetDetails (set_accountNumber "A B" initial))
  = [HttpGet (lookup_endpoint ++ "A%20B")] /\
  percent_decode "A%20B" = "A B".
Proof.
  destruct (X4_lookup_url_injective
              (set_accountNumber "A B" initial) (set_accountNumber "A%20B" initial))
    as (_ & H1 & H2); try discriminate; try reflexivity.
  split; [exact H1|exact H2].
Defined.

(** X5: the URL of the lookup request is the endpoint followed by a query
    value made of unreserved characters and percent escapes only, so no
    character of the account number can end the value or start another
    parameter; an account number of unreserved characters stands in the URL
    as it is. *)
Theorem X5_lookup_url_safe this :
  accountNumber this <> EmptyString -> isLoading this = false ->
  exists q,
    snd (onGetDetails this) = [HttpGet (lookup_endpoint ++ q)] /\
    Js.all_chars is_query_char q = true /\
    (forall c, In c (list_ascii_of_string q) ->
               c <> "&"%char /\ c <> "="%char /\ c <> "#"%char /\ c <> "?"%char
               /\ c <> "/"%char /\ c <> " "%char) /\
    (Js.all_chars Js.uri_unescaped (accountNumber this) = true ->
     q = accountNumber this).
Proof.
  intros Hn Hl. destruct (onGetDetails_starts this Hn Hl) as [_ H].
  exists (Js.encodeURIComponent (accountNumber this)).
  split; [exact H|]. split; [apply encodeURIComponent_chars|].
  split; [|apply encodeURIComponent_plain].
  intros c Hc.
  pose proof (proj1 (all_chars_forall is_query_char _)
                (encodeURIComponent_chars (accountNumber this)) c Hc) as Hq.
  repeat split; intros ->; discriminate Hq.
Qed.

Lemma X5_lookup_url_safe_witness :
  exists q,
    snd (onGetDetails (set_accountNumber "A&B=1" initial))
    = [HttpGet (lookup_endpoint ++ q)] /\
    Js.all_chars is_query_char q = true.
Proof.
  destruct (X5_lookup_url_safe (set_accountNumber "A&B=1" initial))
    as (q & H1 & H2 & _); [discriminate|reflexivity|].
  exists q. split; [exact H1|exact H2].
Defined.

(** ** When a request is sent *)

(** X6: a lookup sends its request exactly when the account number is
    not empty and no request is pending, and then the request is its only
    effect; a payment initiation asks for a tab exactly when consumer details
    are shown and no request is pending, and sends its request exactly when,
    besides, the browser grants the tab. *)
Theorem X6_request_iff_guards this :
  (network_calls (snd (onGetDetails this)) <> [] <->
   accountNumber this <> EmptyString /\ isLoading this = false) /\
  (network_calls (snd (onGetDetails this)) = [] -> snd (onGetDetails this) = []) /\
  (forall w,
      (In WindowOpen (snd (onProceedToPay w this)) <->
       consumerDetails this <> None /\ isLoading this = false) /\
      (network_calls (snd (onProceedToPay w this)) <> [] <->
       consumerDetails this <> None /\ isLoading this = false /\ w <> None)).
Proof.
  destruct this as [acct phone cd err loading].
  unfold onGetDetails, onProceedToPay; cbn.
  split; [|split].
  - destruct acct, loading; cbn; intuition congruence.
  - destruct acct, loading; cbn; intuition congruence.
  - intros w. destruct cd, loading, w; cbn; intuition congruence.
Qed.

(** ** One request at a time *)

Lemma perform_state new_URL ev this :
  fst (perform new_URL ev this) = handle new_URL ev this.
Proof. destruct ev; reflexivity. Qed.

Lemma network_calls_app es1 es2 :
  network_calls (es1 ++ es2) = (network_calls es1 ++ network_calls es2)%list.
Proof. apply filter_app. Qed.

(** While a request is pending, nothing the user does sends another or
    clears the flag. *)
Lemma user_event_pending new_URL ev this :
  is_user_event ev = true ->
  isLoading this = true ->
  network_calls (snd (perform new_URL ev this)) = [] /\
  isLoading (fst (perform new_URL ev this)) = true.
Proof.
  intros Hu Hl. destruct this as [acct phone cd err loading]. cbn in Hl. subst loading.
  destruct ev as [v|v|input| |w|n|w n]; try discriminate Hu; cbn.
  - split; reflexivity.
  - split; reflexivity.
  - unfold restrictToNumber; cbn. destruct cd; split; reflexivity.
  - unfold onGetDetails; cbn. destruct acct; split; reflexivity.
  - unfold onProceedToPay; cbn. destruct cd; split; reflexivity.
Qed.

(** With no request pending, what the user does sends at most one, and
    then the flag is set. *)
Lemma user_event_idle new_URL ev this :
  is_user_event ev = true ->
  isLoading this = false ->
  (network_calls (snd (perform new_URL ev this)) = [] /\
   isLoading (fst (perform new_URL ev this)) = false) \/
  (List.length (network_calls (snd (perform new_URL ev this))) = 1 /\
   isLoading (fst (perform new_URL ev this)) = true).
Proof.
  intros Hu Hl. destruct this as [acct phone cd err loading]. cbn in Hl. subst loading.
  destruct ev as [v|v|input| |w|n|w n]; try discriminate Hu; cbn.
  - left. split; reflexivity.
  - left. split; reflexivity.
  - unfold restrictToNumber; cbn. destruct cd; left; split; reflexivity.
  - unfold onGetDetails; cbn. destruct acct; [left|right]; split; reflexivity.
  - unfold onProceedToPay; cbn.
    destruct cd; [|left; split; reflexivity].
    destruct w; [right|left]; split; reflexivity.
Qed.

Lemma user_events_pending new_URL evs this :
  forallb is_user_event evs = true ->
  isLoading this = true ->
  network_calls (snd (perform_all new_URL evs this)) = [].
Proof.
  revert this. induction evs as [|ev rest IH]; intros this Hu Hl; [reflexivity|].
  cbn [forallb] in Hu. apply andb_prop in Hu as [Hev Hrest].
  cbn [perform_all].
  destruct (user_event_pending new_URL ev this Hev Hl) as [Hn Hl1].
  destruct (perform new_URL ev this) as [this1 es1]. cbn [fst snd] in Hn, Hl1.
  specialize (IH this1 Hrest Hl1).
  destruct (perform_all new_URL rest this1) as [this2 es2]. cbn [fst snd] in *.
  now rewrite network_calls_app, Hn, IH.
Qed.

(** X7: between two notifications of the network the component sends at
    most one request, whatever the user types and clicks and however often;
    while a request is pending it sends none. *)
Theorem X7_one_request_at_a_time new_URL evs this :
  forallb is_user_event evs = true ->
  List.length (network_calls (snd (perform_all new_URL evs this))) <= 1 /\
  (isLoading this = true ->
   network_calls (snd (perform_all new_URL evs this)) = []).
Proof.
  intros Hu. split; [|now apply user_events_pending].
  revert this Hu. induction evs as [|ev rest IH]; intros this Hu; [cbn; lia|].
  cbn [forallb] in Hu. apply andb_prop in Hu as [Hev Hrest].
  cbn [perform_all].
  destruct (isLoading this) eqn:Hl.
  - pose proof (user_events_pending new_URL (ev :: rest) this) as H.
    cbn [forallb perform_all] in H. rewrite Hev, Hrest in H.
    specialize (H eq_refl Hl).
    destruct (perform new_URL ev this) as [this1 es1].
    destruct (perform_all new_URL rest this1) as [this2 es2].
    cbn [fst snd] in *. rewrite H. cbn. lia.
  - destruct (user_event_idle new_URL ev this Hev Hl) as [[Hn Hl1]|[Hn Hl1]].
    + specialize (IH (fst (perform new_URL ev this)) Hrest).
      destruct (perform new_URL ev this) as [this1 es1]. cbn [fst snd] in Hn, Hl1, IH.
      destruct (perform_all new_URL rest this1) as [this2 es2]. cbn [fst snd] in *.
      now rewrite network_calls_app, Hn.
    + pose proof (user_events_pending new_URL rest _ Hrest Hl1) as Hp.
      destruct (perform new_URL ev this) as [this1 es1]. cbn [fst snd] in Hn, Hl1, Hp.
      destruct (perform_all new_URL rest this1) as [this2 es2]. cbn [fst snd] in *.
      rewrite network_calls_app, Hp, app_nil_r. lia.
Qed.

Lemma X7_one_request_at_a_time_witness :
  List.length
    (network_calls
       (snd (perform_all scheme_parser
               [EditAccountNumber "ACC-1"; GetDetails; GetDetails;
                EditAccountNumber "ACC-2"; GetDetails; ProceedToPay (Some 7)]
               initial))) <= 1.
Proof.
  apply (X7_one_request_at_a_time scheme_parser
           [EditAccountNumber "ACC-1"; GetDetails; GetDetails;
            EditAccountNumber "ACC-2"; GetDetails; ProceedToPay (Some 7)]
           initial).
  reflexivity.
Defined.

(** ** The end of a lookup request *)

Lemma next_exactly_one response this :
  (consumerDetails (fst (onGetDetails_next response this)) <> None <->
   lookup_succeeds response = true) /\
  (errorMessage (fst (onGetDetails_next response this)) <> None <->
   lookup_succeeds response = false).
Proof.
  unfold onGetDetails_next, lookup_succeeds.
  destruct (Js.strict_eq (Lookup.message response) "SUCCESS"); cbn.
  - destruct (Js.chain (Lookup.data response) Lookup.payload); cbn;
      intuition congruence.
  - intuition congruence.
Qed.

Lemma lookup_failed_no_details o later :
  lookup_fails o = true ->
  consumerDetails (fst (fst (deliver lookup_observer (notifications o) later))) = None.
Proof.
  intros Hf.
  destruct o as [body|e|];
    cbn [notifications deliver lookup_observer next error complete lookup_fails] in *;
    try reflexivity.
  pose proof (next_exactly_one body later) as [H1 _].
  destruct (onGetDetails_next body later) as [this1 es1].
  cbn in H1 |- *.
  destruct (consumerDetails this1) eqn:E; [|reflexivity].
  apply negb_true_iff in Hf.
  assert (Hs : lookup_succeeds body = true) by (apply H1; discriminate).
  congruence.
Qed.

(** X8: when the request of a lookup has ended with a response object,
    an error or a timeout, exactly one of the consumer details and the error
    message is set, in whatever state the notifications found the component:
    the consumer details when the response says SUCCESS and carries a
    payload, the error message in every other such case. When the response
    has a null body the handler throws before writing, and both are left as
    they were: after a lookup that passed its guards, both are null. In
    every case the loading flag is cleared. *)
Theorem X8_lookup_exactly_one o later :
  match o with
  | Responded (Some response) =>
      (consumerDetails (lookup_body_final o later) <> None <->
       lookup_succeeds response = true) /\
      (errorMessage (lookup_body_final o later) <> None <->
       lookup_succeeds response = false)
  | Responded None =>
      consumerDetails (lookup_body_final o later) = consumerDetails later /\
      errorMessage (lookup_body_final o later) = errorMessage later
  | Failed _ | TimedOut =>
      consumerDetails (lookup_body_final o later) = None /\
      errorMessage (lookup_body_final o later) <> None
  end /\
  isLoading (lookup_body_final o later) = false /\
  (forall this,
      accountNumber this <> EmptyString ->
      isLoading this = false ->
      consumerDetails (fst (fst (lookup_body_run (Responded None) this))) = None /\
      errorMessage (fst (fst (lookup_body_run (Responded None) this))) = None /\
      isLoading (fst (fst (lookup_body_run (Responded None) this))) = false).
Proof.
  unfold lookup_body_final.
  split; [|split].
  - destruct o as [[response|]|e|];
      cbn [notifications deliver lookup_body_observer next error complete
           onGetDetails_next_body].
    + pose proof (next_exactly_one response later) as H.
      destruct (onGetDetails_next response later) as [this1 es1]. exact H.
    + split; reflexivity.
    + cbn. split; [reflexivity|discriminate].
    + cbn. split; [reflexivity|discriminate].
  - destruct o as [[response|]|e|];
      cbn [notifications deliver lookup_body_observer next error complete
           onGetDetails_next_body]; try reflexivity.
    destruct (onGetDetails_next response later) as [this1 es1]. reflexivity.
  - intros this Hn Hl.
    destruct (onGetDetails_starts this Hn Hl) as [Hs He].
    unfold lookup_body_run.
    destruct (onGetDetails this) as [t1 es1]. cbn [fst snd] in Hs, He. subst t1 es1.
    repeat split.
Qed.

Lemma X8_lookup_exactly_one_witness :
  lookup_body_run (Responded None) (set_accountNumber "ACC-1" ready_to_pay)
  = ({| accountNumber := "ACC-1";
        phoneNumber := "";
        consumerDetails := None;
        errorMessage := None;
        isLoading := false |},
     [HttpGet (lookup_endpoint ++ "ACC-1"); DetectChanges],
     [RanNext; RanComplete]) /\
  consumerDetails
    (fst (fst (lookup_body_run (Responded None) (set_accountNumber "ACC-1" ready_to_pay))))
  = None.
Proof.
  split; [reflexivity|].
  apply (proj2 (proj2 (X8_lookup_exactly_one (Responded None) initial))
           (set_accountNumber "ACC-1" ready_to_pay)); [discriminate|reflexivity].
Defined.

Lemma lookup_delivered_account o this :
  accountNumber (fst (fst (deliver lookup_observer (notifications o) this)))
  = accountNumber this.
Proof.
  destruct o as [body|e|]; cbn; try reflexivity.
  unfold onGetDetails_next.
  destruct (negb _); [reflexivity|].
  destruct (Js.chain (Lookup.data body) Lookup.payload); reflexivity.
Qed.

(** X9: what a lookup that passes the guards leaves behind depends on
    the account number and on the outcome of the request alone, not on the
    phone number, consumer details or error message shown before; and once
    it has ended, the same lookup can be sent again. *)
Theorem X9_lookup_fresh this1 this2 o :
  accountNumber this1 = accountNumber this2 ->
  accountNumber this1 <> EmptyString ->
  isLoading this1 = false ->
  isLoading this2 = false ->
  lookup_run o this1 = lookup_run o this2 /\
  onGetDetails (fst (fst (lookup_run o this1)))
  = (fst (onGetDetails this1), snd (onGetDetails this1)) /\
  network_calls (snd (onGetDetails (fst (fst (lookup_run o this1))))) <> [].
Proof.
  intros Ha Hn Hl1 Hl2.
  assert (Hn2 : accountNumber this2 <> EmptyString) by congruence.
  destruct (onGetDetails_starts this1 Hn Hl1) as [Hs1 He1].
  destruct (onGetDetails_starts this2 Hn2 Hl2) as [Hs2 He2].
  assert (Hsame : onGetDetails this1 = onGetDetails this2).
  { destruct (onGetDetails this1), (onGetDetails this2). cbn in *. congruence. }
  split; [unfold lookup_run; now rewrite Hsame|].
  assert (Hfinal : accountNumber (fst (fst (lookup_run o this1))) = accountNumber this1
                   /\ isLoading (fst (fst (lookup_run o this1))) = false).
  { unfold lookup_run.
    destruct (onGetDetails this1) as [t1 es1]. cbn [fst snd] in Hs1, He1. subst es1.
    cbn [network_calls filter is_network_call].
    pose proof (lookup_delivered_account o t1) as Hacc.
    pose proof (lookup_delivered o t1) as [Hload _].
    destruct (deliver lookup_observer (notifications o) t1) as [[t2 es2] hs].
    cbn [fst snd] in *. rewrite Hacc, Hs1. split; [reflexivity|exact Hload]. }
  destruct Hfinal as [Hacc Hload].
  assert (Hn3 : accountNumber (fst (fst (lookup_run o this1))) <> EmptyString)
    by congruence.
  destruct (onGetDetails_starts _ Hn3 Hload) as [Hs3 He3].
  split.
  - destruct (onGetDetails (fst (fst (lookup_run o this1)))) as [t3 es3].
    cbn [fst snd] in *. rewrite Hs1, He1. f_equal; congruence.
  - rewrite He3. discriminate.
Qed.

Lemma X9_lookup_fresh_witness :
  lookup_run TimedOut (set_accountNumber "ACC-1" initial)
  = lookup_run TimedOut (set_accountNumber "ACC-1" ready_to_pay).
Proof.
  apply (X9_lookup_fresh (set_accountNumber "ACC-1" initial)
           (set_accountNumber "ACC-1" ready_to_pay) TimedOut);
    [reflexivity|discriminate|reflexivity|reflexivity].
Defined.

(** ** What a payment initiation leaves alone *)

Lemma payment_next_frame new_URL w response this :
  accountNumber (fst (onProceedToPay_next new_URL w response this)) = accountNumber this /\
  phoneNumber (fst (onProceedToPay_next new_URL w response this)) = phoneNumber this /\
  consumerDetails (fst (onProceedToPay_next new_URL w response this))
  = consumerDetails this.
Proof.
  unfold onProceedToPay_next.
  destruct (if Js.strict_eq (Payment.message response) "Success" then _ else None)
    as [l|]; [|repeat split].
  destruct (new_URL l); repeat split.
Qed.

Lemma payment_delivered_frame new_URL w o this :
  accountNumber (fst (fst (deliver (payment_observer new_URL w) (notifications o) this)))
  = accountNumber this /\
  phoneNumber (fst (fst (deliver (payment_observer new_URL w) (notifications o) this)))
  = phoneNumber this /\
  consumerDetails (fst (fst (deliver (payment_observer new_URL w) (notifications o) this)))
  = consumerDetails this.
Proof.
  destruct o as [body|e|];
    cbn [notifications deliver payment_observer next error complete].
  - pose proof (payment_next_frame new_URL w body this) as H.
    destruct (onProceedToPay_next new_URL w body this) as [this1 es1]. exact H.
  - repeat split.
  - repeat split.
Qed.

(** X10: a payment initiation never writes the account number, the phone
    number or the consumer details, whichever way it ends: stopped at a
    guard, blocked popup, navigation, bad link, rejection, error or
    timeout. *)
Theorem X10_payment_frame new_URL tempWindow o this :
  accountNumber (fst (fst (payment_run new_URL tempWindow o this))) = accountNumber this /\
  phoneNumber (fst (fst (payment_run new_URL tempWindow o this))) = phoneNumber this /\
  consumerDetails (fst (fst (payment_run new_URL tempWindow o this)))
  = consumerDetails this.
Proof.
  unfold payment_run, onProceedToPay.
  destruct this as [acct phone cd err loading]; cbn.
  destruct cd as [d|]; [|repeat split].
  destruct loading; [repeat split|].
  destruct tempWindow as [w|]; [|repeat split].
  cbn [network_calls filter is_network_call].
  pose proof (payment_delivered_frame new_URL w o
                (set_errorMessage None
                   (set_isLoading true
                      {| accountNumber := acct; phoneNumber := phone;
                         consumerDetails := Some d; errorMessage := err;
                         isLoading := false |}))) as H.
  destruct (deliver (payment_observer new_URL w) (notifications o) _) as [[t2 es2] hs].
  exact H.
Qed.

(** ** The opened tab *)

Lemma payment_next_tab new_URL w response this :
  window_effects (snd (onProceedToPay_next new_URL w response this))
  = [match payment_href new_URL response with
     | Some href => WindowNavigate w href
     | None => WindowClose w
     end] /\
  (payment_href new_URL response = None ->
   errorMessage (fst (onProceedToPay_next new_URL w response this)) <> None) /\
  (payment_href new_URL response <> None ->
   fst (onProceedToPay_next new_URL w response this) = this).
Proof.
  unfold onProceedToPay_next, payment_href.
  destruct (if Js.strict_eq (Payment.message response) "Success" then _ else None)
    as [l|]; cbn.
  - destruct (new_URL l); cbn; intuition congruence.
  - intuition congruence.
Qed.

(** X11: a payment initiation that got its tab and sent its request
    opens the tab once and then, when the request has ended with a response
    object, an error or a timeout, does to it exactly one thing: it sends it
    to the parsed address when the response says Success and its link is
    truthy and parses, and then no error message is set; in every other such
    case (bad link, rejection, error, timeout) it closes the tab and sets an
    error message. When the response has a null body the handler throws
    before it touches the tab: the tab is neither sent anywhere nor closed,
    and no error message is set. In every case the loading flag is
    cleared. *)
Theorem X11_tab_navigated_or_closed new_URL w o this details :
  consumerDetails this = Some details ->
  isLoading this = false ->
  window_effects (snd (fst (payment_body_run new_URL (Some w) o this)))
  = WindowOpen :: tab_fate new_URL w o /\
  (errorMessage (fst (fst (payment_body_run new_URL (Some w) o this))) = None
   <-> payment_silent new_URL o = true) /\
  isLoading (fst (fst (payment_body_run new_URL (Some w) o this))) = false.
Proof.
  intros Hd Hl.
  destruct (onProceedToPay_starts w this details Hd Hl) as [body Hst].
  unfold payment_body_run. rewrite Hst.
  cbn [network_calls filter is_network_call].
  set (this1 := {| accountNumber := accountNumber this;
                   phoneNumber := phoneNumber this;
                   consumerDetails := Some details;
                   errorMessage := None;
                   isLoading := true |}).
  destruct o as [[response|]|e|];
    cbn [notifications deliver payment_body_observer next error complete
         onProceedToPay_next_body tab_fate payment_silent].
  - pose proof (payment_next_tab new_URL w response this1) as (Ht & Hnone & Hsome).
    destruct (onProceedToPay_next new_URL w response this1) as [t2 es2].
    cbn [fst snd] in *. unfold window_effects, onProceedToPay_complete in *.
    cbn [fst snd filter is_window_effect app]. rewrite filter_app, Ht.
    cbn [filter is_window_effect app errorMessage isLoading set_isLoading].
    split; [reflexivity|]. split; [|reflexivity].
    destruct (payment_href new_URL response) as [href|].
    + rewrite (Hsome ltac:(discriminate)). cbn. intuition congruence.
    + specialize (Hnone eq_refl). intuition congruence.
  - cbn. intuition congruence.
  - cbn. intuition congruence.
  - cbn. intuition congruence.
Qed.

Lemma X11_tab_navigated_or_closed_witness :
  window_effects
    (snd (fst (payment_body_run scheme_parser (Some 7)
                 (Responded (Some (link_response "https://pay.example/s/1")))
                 ready_to_pay)))
  = [WindowOpen; WindowNavigate 7 "https://pay.example/s/1"] /\
  window_effects
    (snd (fst (payment_body_run scheme_parser (Some 7)
                 (Responded (Some (link_response "not a url"))) ready_to_pay)))
  = [WindowOpen; WindowClose 7] /\
  window_effects
    (snd (fst (payment_body_run scheme_parser (Some 7) (Responded None) ready_to_pay)))
  = [WindowOpen].
Proof.
  split; [|split].
  - exact (proj1 (X11_tab_navigated_or_closed scheme_parser 7
                    (Responded (Some (link_response "https://pay.example/s/1")))
                    ready_to_pay
                    {| name := "Jane"; dueDate := "2025-01-01"; amount := Js.zero |}
                    eq_refl eq_refl)).
  - exact (proj1 (X11_tab_navigated_or_closed scheme_parser 7
                    (Responded (Some (link_response "not a url"))) ready_to_pay
                    {| name := "Jane"; dueDate := "2025-01-01"; amount := Js.zero |}
                    eq_refl eq_refl)).
  - exact (proj1 (X11_tab_navigated_or_closed scheme_parser 7
                    (Responded None) ready_to_pay
                    {| name := "Jane"; dueDate := "2025-01-01"; amount := Js.zero |}
                    eq_refl eq_refl)).
Defined.

(** ** A blocked popup *)

(** X12: when the browser blocks the popup, no request is sent, the
    markup message about popups is shown and the loading flag is cleared;
    the consumer details stay, and a second attempt that gets its tab does
    what a first attempt would have done. *)
Theorem X12_popup_blocked this details :
  consumerDetails this = Some details ->
  isLoading this = false ->
  onProceedToPay None this =
  ({| accountNumber := accountNumber this;
      phoneNumber := phoneNumber this;
      consumerDetails := Some details;
      errorMessage := Some (Markup popup_blocked_html);
      isLoading := false |},
   [WindowOpen; DetectChanges]) /\
  (forall o new_URL,
      network_calls (snd (fst (payment_run new_URL None o this))) = [] /\
      snd (payment_run new_URL None o this) = []) /\
  (forall w,
      onProceedToPay (Some w) (fst (onProceedToPay None this))
      = onProceedToPay (Some w) this).
Proof.
  destruct this as [acct phone cd err loading]; cbn.
  intros -> ->. unfold payment_run, onProceedToPay; cbn.
  repeat split.
Qed.

Lemma X12_popup_blocked_witness :
  onProceedToPay (Some 7) (fst (onProceedToPay None ready_to_pay))
  = onProceedToPay (Some 7) ready_to_pay.
Proof.
  destruct (X12_popup_blocked ready_to_pay
              {| name := "Jane"; dueDate := "2025-01-01"; amount := Js.zero |}
              eq_refl eq_refl) as (_ & _ & H).
  exact (H 7).
Defined.

(** ** Plain text and markup *)

Lemma lookup_next_plain response this :
  is_markup (errorMessage (fst (onGetDetails_next response this))) = false.
Proof.
  unfold onGetDetails_next.
  destruct (negb _); [reflexivity|].
  destruct (Js.chain (Lookup.data response) Lookup.payload); reflexivity.
Qed.

(** X13: a lookup never shows markup: the message set by its validation
    guard and by the handlers of its request, the text of the server
    included, is a plain string or null; so after a lookup the error message
    is markup only if the lookup was ignored and the message was markup
    before. *)
Theorem X13_lookup_plain :
  (forall o later,
      is_markup
        (errorMessage (fst (fst (deliver lookup_observer (notifications o) later))))
      = false) /\
  (forall o this,
      is_markup (errorMessage (fst (fst (lookup_run o this)))) = true ->
      is_markup (errorMessage this) = true /\ fst (fst (lookup_run o this)) = this).
Proof.
  assert (Hd : forall o later,
             is_markup
               (errorMessage (fst (fst (deliver lookup_observer (notifications o) later))))
             = false).
  { intros o later. destruct o as [body|e|]; cbn; try reflexivity.
    pose proof (lookup_next_plain body later) as H.
    destruct (onGetDetails_next body later) as [this1 es1]. exact H. }
  split; [exact Hd|].
  intros o this. unfold lookup_run, onGetDetails.
  destruct (negb (Js.truthy (accountNumber this))); cbn; [discriminate|].
  destruct (isLoading this); cbn [network_calls filter is_network_call fst snd].
  - auto.
  - specialize (Hd o (set_phoneNumber ""
                        (set_consumerDetails None
                           (set_errorMessage None (set_isLoading true this))))).
    destruct (deliver lookup_observer (notifications o) _) as [[t2 es2] hs].
    cbn [fst snd] in *. congruence.
Qed.

Lemma generic_error_branches e :
  is_generic_error e = true ->
  name_is e "TimeoutError" = false /\
  status_is e 0 = false /\
  (status_is e 401 || status_is e 403) = false.
Proof.
  unfold is_generic_error. intros H.
  repeat (apply andb_prop in H as [H ?]).
  apply negb_true_iff in H.
  repeat match goal with X : negb _ = true |- _ => apply negb_true_iff in X end.
  repeat split; try assumption. now apply orb_false_iff.
Qed.

(** X14: for an error that is neither a timeout nor status 0, 401 or 403,
    the text of the error object is shown as it comes: by the lookup inside
    a plain string, by the payment initiation inside trusted markup, with no
    escaping; when the error has no text, the words Unknown error stand in
    its place. *)
Theorem X14_generic_error_text new_URL w e this :
  is_generic_error e = true ->
  errorMessage (fst (onGetDetails_error e this))
  = Some (Plain ("Failed to fetch details: "
                 ++ Js.or_default (HttpError.message e) "Unknown error")) /\
  errorMessage (fst (onProceedToPay_error w e this))
  = Some (Markup ("Failed to initiate payment: "
                  ++ Js.or_default (HttpError.message e) "Unknown error")) /\
  errorMessage
    (fst (fst (deliver (payment_observer new_URL w) (notifications (Failed e)) this)))
  = Some (Markup ("Failed to initiate payment: "
                  ++ Js.or_default (HttpError.message e) "Unknown error")).
Proof.
  intros H. destruct (generic_error_branches e H) as (H1 & H2 & H3).
  unfold onGetDetails_error, onProceedToPay_error. cbn.
  unfold onProceedToPay_error. rewrite H1, H2, H3. cbn. repeat split.
Qed.

Lemma X14_generic_error_text_witness :
  errorMessage
    (fst (onProceedToPay_error 7
            {| HttpError.name := Some "HttpErrorResponse";
               HttpError.status := Some 500%Z;
               HttpError.message := Some "<b>down</b>" |} pending_payment))
  = Some (Markup "Failed to initiate payment: <b>down</b>").
Proof.
  exact (proj1 (proj2 (X14_generic_error_text scheme_parser 7
                         {| HttpError.name := Some "HttpErrorResponse";
                            HttpError.status := Some 500%Z;
                            HttpError.message := Some "<b>down</b>" |}
                         pending_payment eq_refl))).
Defined.

(** ** From the lookup to the payment *)

Lemma number_condition p :
  Js.truthy p && (negb (Js.truthy p) || Js.test_ten_digits p) = Js.test_ten_digits p.
Proof. destruct p as [|c r]; reflexivity. Qed.

(** X15: after a lookup whose response says SUCCESS and carries a
    payload, a payment initiation that gets its tab posts the name and the
    amount taken from that payload (or their fallbacks), the account number
    that was looked up, and the phone number of the payload when it is
    exactly ten digits; after a lookup that fails, a payment initiation
    performs no effect and shows that no consumer details are available. *)
Theorem X15_lookup_then_pay this :
  accountNumber this <> EmptyString ->
  isLoading this = false ->
  (forall p w,
      snd (onProceedToPay (Some w)
             (fst (fst (lookup_run (Responded (success_response p)) this))))
      = [WindowOpen;
         HttpPost payment_endpoint
           {| Payment.name := Js.or_default (payload_name p) "Unknown Name";
              Payment.fileNumber := accountNumber this;
              Payment.amount := Js.or_zero (parseFloat (Lookup.totalAmount p));
              Payment.number :=
                if Js.test_ten_digits (Js.or_default (payload_phone p) EmptyString)
                then Some (Js.or_default (payload_phone p) EmptyString)
                else None |}
           [("Content-Type", "application/json")]]) /\
  (forall o w,
      lookup_fails o = true ->
      snd (onProceedToPay w (fst (fst (lookup_run o this)))) = [] /\
      errorMessage (fst (onProceedToPay w (fst (fst (lookup_run o this)))))
      = Some (Plain "No consumer details available to proceed with payment.")).
Proof.
  intros Hn Hl.
  destruct (onGetDetails_starts this Hn Hl) as [Hs He].
  split.
  - intros p w. unfold lookup_run.
    destruct (onGetDetails this) as [t1 es1]. cbn [fst snd] in Hs, He. subst t1 es1.
    cbn [network_calls filter is_network_call notifications deliver lookup_observer
         next complete].
    unfold onGetDetails_next, success_response, onGetDetails_complete.
    cbn [Lookup.message Lookup.data Lookup.payload Js.strict_eq Js.chain
         String.eqb Ascii.eqb Bool.eqb negb fst snd].
    fold (payload_name p). fold (payload_phone p).
    unfold onProceedToPay, paymentPayload, isPhoneNumberValid. cbn.
    now rewrite number_condition.
  - intros o w Hf. unfold lookup_run.
    destruct (onGetDetails this) as [t1 es1]. cbn [fst snd] in Hs, He. subst es1.
    cbn [network_calls filter is_network_call].
    pose proof (lookup_failed_no_details o t1 Hf) as Hnone.
    destruct (deliver lookup_observer (notifications o) t1) as [[t2 es2] hs].
    cbn [fst snd] in *. unfold onProceedToPay. rewrite Hnone. split; reflexivity.
Qed.

Lemma X15_lookup_then_pay_witness :
  snd (onProceedToPay (Some 7)
         (fst (fst (lookup_run (Responded jane_response)
                      (set_accountNumber "ACC-1" initial)))))
  = [WindowOpen;
     HttpPost payment_endpoint
       {| Payment.name := "Jane";
          Payment.fileNumber := "ACC-1";
          Payment.amount := number_42_5;
          Payment.number := Some "5551234567" |}
       [("Content-Type", "application/json")]].
Proof.
  destruct (X15_lookup_then_pay (set_accountNumber "ACC-1" initial)) as [H _];
    [discriminate|reflexivity|].
  exact (H {| Lookup.customerDetails :=
                Some {| Lookup.name := Some "Jane";
                        Lookup.phoneNumber := Some "5551234567" |};
              Lookup.dueDate := Some "2025-01-01";
              Lookup.totalAmount := Some (Lookup.AmountString "42.50") |} 7).
Defined.
